(** * HerShield: the alert pipeline of [backend/maincctv.py]

    A shallow embedding of the parts of [maincctv.py] that are the
    program's own logic: the nighttime test, the location fallback, the
    SOS-gesture test on hand landmarks, the incident log and the three
    alert conditions of the capture loop.

    What is outside the embedding: the pretrained models (their outputs,
    the [genders] list and the hand landmarks, are inputs here), the
    pixels of the frame ([cv2.putText], [cv2.rectangle], [cv2.imshow]
    only change the displayed image) and the playback of the sound (only
    the start of its thread is recorded).  The incident file is kept as
    the sequence of rows handed to [csv.writer.writerow]; how the [csv]
    module turns a row into text is not part of the program. *)

From Stdlib Require Import List String Ascii Bool Arith ZArith Lia.
From Stdlib Require Import DecimalString.
From Stdlib Require Import PrimFloat.
Import ListNotations.
Local Open Scope string_scope.
Local Open Scope list_scope.
Local Open Scope nat_scope.

Set Implicit Arguments.

(** ** Python values that reach the incident log *)

(** A Python [float] is an IEEE 754 binary64 number, as is [PrimFloat.float]. *)
Definition pyfloat := PrimFloat.float.

(** The values the program passes around as location data: [None], a
    [str], or the [latlng] pair of the geocoder. *)
Inductive pyval : Type :=
| PyNone
| PyStr (s : string)
| PyLatLng (lat lng : pyfloat).
Arguments PyLatLng (lat lng)%_float.

(** [location] is the tuple [(coords, city)]; [location[0]] is its first
    component and [location[1]] its second. *)
Definition location : Type := (pyval * pyval)%type.

(** ** [datetime] *)

Record datetime : Type := mkDatetime {
  year : nat; month : nat; day : nat;
  hour : nat; minute : nat; second : nat
}.

(** ** Exceptions *)

Inductive exn : Type :=
| PermissionError
| DiskFull
| OSError (errno : nat)
| IndexError.

Inductive result (A : Type) : Type :=
| Ok (a : A)
| Raise (e : exn).
Arguments Ok {A} a.
Arguments Raise {A} e.

(** ** The world the program runs in *)

(** One row handed to [csv.writer.writerow]. *)
Definition row : Type := list pyval.

(** Calls whose order matters to the alert logic, kept as a history. *)
Inductive event : Type :=
| EAlertThread                                   (* threading.Thread(target=play_alert_sound).start() *)
| ELogIncident (incident_type : string) (loc : location).  (* log_incident(...) entered *)

Record world : Type := mkWorld {
  clock : nat -> datetime;          (* the n-th reading of datetime.now() *)
  reads : nat;                      (* readings taken so far *)
  incident_file : option (list row);(* incident_reports.csv: None when the file is absent *)
  io_faults : list (option exn);    (* outcome of the coming file operations, in order *)
  events : list event               (* call history, oldest first *)
}.

(** ** A state and exception monad

    A Python exception leaves the effects that came before it in place,
    so a computation returns the world also when it raises. *)

Definition M (A : Type) : Type := world -> result A * world.

Definition ret {A : Type} (a : A) : M A := fun w => (Ok a, w).

Definition raise {A : Type} (e : exn) : M A := fun w => (Raise e, w).

Definition bind {A B : Type} (m : M A) (k : A -> M B) : M B :=
  fun w =>
    match m w with
    | (Ok a, w') => k a w'
    | (Raise e, w') => (Raise e, w')
    end.

Declare Scope py_scope.
Delimit Scope py_scope with py.
Notation "x <- m ;; k" := (bind m (fun x => k))
  (at level 61, m at next level, right associativity) : py_scope.
Notation "m ;; k" := (bind m (fun _ => k))
  (at level 61, right associativity) : py_scope.
Local Open Scope py_scope.

Definition emit (ev : event) : M unit :=
  fun w => (Ok tt, mkWorld (clock w) (reads w) (incident_file w) (io_faults w)
                           (events w ++ [ev])).

(** [datetime.now()] *)
Definition datetime_now : M datetime :=
  fun w => (Ok (clock w (reads w)),
            mkWorld (clock w) (S (reads w)) (incident_file w) (io_faults w) (events w)).

(** The time the next [datetime.now()] will return. *)
Definition current_time (w : world) : datetime := clock w (reads w).

(** ** [is_nighttime] (lines 46-48) *)

Definition is_nighttime : M bool :=
  now <- datetime_now ;;
  let current_hour := hour now in
  ret ((current_hour <? 6) || (18 <=? current_hour)).

(** ** [get_location] (lines 51-53) *)

(** What [geocoder.ip('me')] answers. *)
Record geocoder_result : Type := mkGeo {
  ok : bool;
  latlng : pyval;
  city : pyval
}.

Definition get_location (g : geocoder_result) : location :=
  if ok g then (latlng g, city g) else (PyNone, PyStr "Unknown").

(** ** [detect_sos_gesture] (lines 66-77) *)

Record landmark : Type := mkLandmark { x : pyfloat; y : pyfloat }.
Arguments mkLandmark (x y)%_float.

(** [hand_landmarks.landmark], a sequence indexed by [HandLandmark]. *)
Definition hand : Type := list landmark.

Definition THUMB_TIP : nat := 4.
Definition INDEX_FINGER_TIP : nat := 8.

(** [seq[i]] of Python for a non-negative [i]. *)
Definition index {A : Type} (l : list A) (i : nat) : result A :=
  match nth_error l i with
  | Some a => Ok a
  | None => Raise IndexError
  end.

(** [abs(a - b) < 0.02] on floats. *)
Definition near (a b : pyfloat) : bool :=
  PrimFloat.ltb (PrimFloat.abs (PrimFloat.sub a b)) 0.02%float.

(** The test of line 74 on two landmarks. *)
Definition tips_touch (thumb_tip index_tip : landmark) : bool :=
  near (x thumb_tip) (x index_tip) && near (y thumb_tip) (y index_tip).

(** The [for] loop of lines 70-76, with [sos_detected] as its state. *)
Fixpoint sos_loop (hands : list hand) (sos_detected : bool) : result bool :=
  match hands with
  | [] => Ok sos_detected
  | hand_landmarks :: rest =>
      match index hand_landmarks THUMB_TIP with
      | Raise e => Raise e
      | Ok thumb_tip =>
          match index hand_landmarks INDEX_FINGER_TIP with
          | Raise e => Raise e
          | Ok index_tip =>
              if tips_touch thumb_tip index_tip
              then sos_loop rest true
              else sos_loop rest sos_detected
          end
      end
  end.

(** [multi_hand_landmarks] is [None] when no hand is seen, and an empty
    list is falsy as well. *)
Definition detect_sos_gesture (multi_hand_landmarks : option (list hand))
  : result bool :=
  let sos_detected := false in
  match multi_hand_landmarks with
  | None => Ok sos_detected
  | Some [] => Ok sos_detected
  | Some hands => sos_loop hands sos_detected
  end.

(** ** Text of numbers and timestamps *)

(** [str(n)] for a non-negative [int]: its decimal digits. *)
Definition str_nat (n : nat) : string := NilEmpty.string_of_uint (Nat.to_uint n).

Fixpoint zeros (n : nat) : string :=
  match n with
  | 0 => EmptyString
  | S k => String "0" (zeros k)
  end.

(** Decimal digits padded with zeros on the left to [width], as the
    conversions [%Y] (4), [%m], [%d], [%H], [%M] and [%S] (2) do for the
    fields of a current time. *)
Definition zfill (width : nat) (n : nat) : string :=
  let digits := str_nat n in
  zeros (width - String.length digits) ++ digits.

Definition fmt_date (d : datetime) : string :=
  zfill 4 (year d) ++ "-" ++ zfill 2 (month d) ++ "-" ++ zfill 2 (day d).

Definition fmt_time (d : datetime) : string :=
  zfill 2 (hour d) ++ ":" ++ zfill 2 (minute d) ++ ":" ++ zfill 2 (second d).

(** [d.strftime('%Y-%m-%d %H:%M:%S')] *)
Definition strftime (d : datetime) : string :=
  fmt_date d ++ " " ++ fmt_time d.

(** [s.split(sep)] for a separator of one character. *)
Fixpoint split (sep : ascii) (s : string) : list string :=
  match s with
  | EmptyString => [EmptyString]
  | String c rest =>
      if Ascii.eqb c sep then EmptyString :: split sep rest
      else match split sep rest with
           | piece :: pieces => String c piece :: pieces
           | [] => [String c EmptyString]
           end
  end.

(** ** The incident file *)

Definition set_file (f : option (list row)) (w : world) : world :=
  mkWorld (clock w) (reads w) f (io_faults w) (events w).

Definition set_faults (fs : list (option exn)) (w : world) : world :=
  mkWorld (clock w) (reads w) (incident_file w) fs (events w).

(** [os.path.isfile(incident_report_file)] *)
Definition os_path_isfile : M bool :=
  fun w => (Ok (match incident_file w with Some _ => true | None => false end), w).

(** A file operation takes the next outcome of [io_faults]; when none is
    listed the operation succeeds. *)
Definition file_op : M unit :=
  fun w =>
    match io_faults w with
    | [] => (Ok tt, w)
    | None :: rest => (Ok tt, set_faults rest w)
    | Some e :: rest => (Raise e, set_faults rest w)
    end.

(** The rows of the file once it is open for appending: mode ['a']
    creates an absent file, empty. *)
Definition rows_of (f : option (list row)) : list row :=
  match f with
  | Some rows => rows
  | None => []
  end.

(** [open(incident_report_file, mode='a', ...)] *)
Definition open_append : M unit :=
  file_op ;;
  fun w => (Ok tt, set_file (Some (rows_of (incident_file w))) w).

(** [writer.writerow(r)] *)
Definition writerow (r : row) : M unit :=
  file_op ;;
  fun w => (Ok tt, set_file (Some (rows_of (incident_file w) ++ [r])) w).

(** Closing the file flushes it, which can fail as a write can. *)
Definition close : M unit := file_op.

(** [with open(...) as file: body]: the file is closed when the body
    ends, also when it ends by an exception; an exception of the close
    replaces the one of the body. *)
Definition with_open_append {A : Type} (body : M A) : M A :=
  open_append ;;
  fun w =>
    match body w with
    | (Ok a, w1) => (close ;; ret a) w1
    | (Raise e, w1) => (close ;; raise e) w1
    end.

Definition lift {A : Type} (r : result A) : M A := fun w => (r, w).

Definition header : row :=
  [PyStr "Date"; PyStr "Time"; PyStr "Incident Type"; PyStr "Location";
   PyStr "Coordinates"].

(** ** [log_incident] (lines 56-63)

    The call is entered in the history first, which the source does not
    do; everything after it follows the source line by line. *)
Definition log_incident (incident_type : string) (location : location) : M unit :=
  emit (ELogIncident incident_type location) ;;
  file_exists <- os_path_isfile ;;
  with_open_append
    ((if negb file_exists then writerow header else ret tt) ;;
     now <- datetime_now ;;
     let date_time := split " " (strftime now) in
     date <- lift (index date_time 0) ;;
     time <- lift (index date_time 1) ;;
     writerow [PyStr date; PyStr time; PyStr incident_type;
               snd location; fst location]).

(** ** The alert conditions of the capture loop (lines 135-155) *)

(** [threading.Thread(target=play_alert_sound).start()] *)
Definition start_alert_thread : M unit := emit EAlertThread.

(** [a and m()]: the right operand runs only when the left one holds. *)
Definition and_then (a : bool) (m : M bool) : M bool :=
  if a then m else ret false.

Definition check_alerts (num_males num_females : nat) (sos_detected : bool)
    (loc : location) : M bool :=
  let alert_triggered := false in
  (* Condition 1: Woman Alone at Night *)
  c1 <- and_then (negb alert_triggered)
          (night <- is_nighttime ;;
           ret (night && (num_females =? 1) && (num_males =? 0))) ;;
  alert_triggered <-
    (if c1 then
       start_alert_thread ;;
       log_incident "Woman Alone at Night" loc ;;
       ret true
     else ret alert_triggered) ;;
  (* Condition 2: SOS Gesture Detected *)
  alert_triggered <-
    (if negb alert_triggered && sos_detected then
       start_alert_thread ;;
       log_incident "SOS Gesture Detected" loc ;;
       ret true
     else ret alert_triggered) ;;
  (* Condition 3: One Woman Surrounded by More Than One Male *)
  alert_triggered <-
    (if negb alert_triggered && (num_females =? 1) && (1 <? num_males) then
       start_alert_thread ;;
       log_incident ("1 Female with " ++ str_nat num_males ++ " Males") loc ;;
       ret true
     else ret alert_triggered) ;;
  ret alert_triggered.

(** The body of the loop up to the conditions (lines 129-155); [genders]
    is what [detect_person_and_gender] returned for the frame. *)
Definition process_frame (genders : list string)
    (multi_hand_landmarks : option (list hand)) (loc : location) : M bool :=
  sos_detected <- lift (detect_sos_gesture multi_hand_landmarks) ;;
  let num_males := count_occ string_dec genders "Male" in
  let num_females := count_occ string_dec genders "Female" in
  check_alerts num_males num_females sos_detected loc.

(** ** The decision as the specification words it

    The source has no value for "the condition that fired": it has three
    guarded blocks.  The specification (sections 3, 4.1 and 4.2) names the
    conditions and gives their order and labels; these definitions follow
    its words and are compared with [check_alerts] below. *)

Inductive IncidentCondition : Type :=
| LoneWomanAtNight
| SosGesture
| WomanSurroundedByMales (count : nat).

Definition spec_decision (isNighttime : bool) (maleCount femaleCount : nat)
    (gestureDetected : bool) : option IncidentCondition :=
  if isNighttime && (femaleCount =? 1) && (maleCount =? 0) then Some LoneWomanAtNight
  else if gestureDetected then Some SosGesture
  else if (femaleCount =? 1) && (1 <? maleCount)
       then Some (WomanSurroundedByMales maleCount)
  else None.

Definition spec_label (c : IncidentCondition) : string :=
  match c with
  | LoneWomanAtNight => "Woman Alone at Night"
  | SosGesture => "SOS Gesture Detected"
  | WomanSurroundedByMales n => "1 Female with " ++ str_nat n ++ " Males"
  end.

(** ** What a run added *)

(** The events a run from [w] to [w'] added to the history. *)
Definition new_events (w w' : world) : list event :=
  skipn (List.length (events w)) (events w').

Definition logged_types (evs : list event) : list string :=
  flat_map (fun ev => match ev with
                      | ELogIncident t _ => [t]
                      | EAlertThread => []
                      end) evs.

(** The incident types the conditions of one frame passed to
    [log_incident], in order. *)
Definition frame_incidents (num_males num_females : nat) (sos_detected : bool)
    (loc : location) (w : world) : list string :=
  logged_types
    (new_events w (snd (check_alerts num_males num_females sos_detected loc w))).

(** Whether the hour of the next clock reading counts as night. *)
Definition night (w : world) : bool :=
  (hour (current_time w) <? 6) || (18 <=? hour (current_time w)).

(** The data row [log_incident] writes at time [d]. *)
Definition data_row (incident_type : string) (loc : location) (d : datetime) : row :=
  [PyStr (fmt_date d); PyStr (fmt_time d); PyStr incident_type; snd loc; fst loc].

(** Whether character [c] occurs in [s]. *)
Fixpoint occurs (c : ascii) (s : string) : bool :=
  match s with
  | EmptyString => false
  | String a rest => Ascii.eqb a c || occurs c rest
  end.

(** ** Appends in sequence *)

(** The calls [log_incident(t1, loc1)], [log_incident(t2, loc2)], ... one
    after the other, as the loop makes them over the frames that fire. *)
Fixpoint log_all (incidents : list (string * location)) : M unit :=
  match incidents with
  | [] => ret tt
  | (incident_type, loc) :: rest =>
      log_incident incident_type loc ;; log_all rest
  end.

(** The data rows of such a sequence when the [n]-th clock reading is the
    first one it takes. *)
Fixpoint data_rows (clk : nat -> datetime) (n : nat)
    (incidents : list (string * location)) : list row :=
  match incidents with
  | [] => []
  | (incident_type, loc) :: rest =>
      data_row incident_type loc (clk n) :: data_rows clk (S n) rest
  end.

(** ** Notions the properties are stated with *)

(** The hand-landmark model reports 21 landmarks for every hand. *)
Definition full_hand (h : hand) : Prop := List.length h = 21.

Definition landmarks_wf (r : option (list hand)) : Prop :=
  match r with
  | None => True
  | Some hands => Forall full_hand hands
  end.

(** A hand whose thumb tip and index-finger tip are closer than 0.02 in
    x and in y. *)
Definition touching (h : hand) : Prop :=
  exists thumb_tip index_tip : landmark,
    nth_error h THUMB_TIP = Some thumb_tip /\
    nth_error h INDEX_FINGER_TIP = Some index_tip /\
    near (x thumb_tip) (x index_tip) = true /\
    near (y thumb_tip) (y index_tip) = true.

(** The rows in the file once [log_incident] has written its header, if
    it had to. *)
Definition rows_with_header (f : option (list row)) : list row :=
  match f with
  | Some rows => rows
  | None => [header]
  end.

(** The file operations of a run of [log_incident] that meets no fault:
    open, the header when the file is absent, the data row, close. *)
Definition file_ops (w : world) : nat :=
  match incident_file w with
  | Some _ => 3
  | None => 4
  end.

(** The outcomes the coming run of [log_incident] can meet. *)
Definition coming_outcomes (w : world) : list (option exn) :=
  firstn (file_ops w) (io_faults w).

(** The history entries of a condition that fires. *)
Definition alert_events (c : option IncidentCondition) (loc : location) : list event :=
  match c with
  | Some c => [EAlertThread; ELogIncident (spec_label c) loc]
  | None => []
  end.

(** The last row of the incident file, and its Incident Type field. *)
Definition last_row (w : world) : option row :=
  match incident_file w with
  | Some rows => Some (last rows [])
  | None => None
  end.

Definition persisted_type (w : world) : option pyval :=
  match last_row w with
  | Some r => nth_error r 2
  | None => None
  end.

(** ** Sample inputs *)

(** Two hands: one open, one with thumb tip and index tip together. *)
Definition open_hand : hand :=
  repeat (mkLandmark 0.5 0.5) 4 ++ [mkLandmark 0.25 0.5] ++
  repeat (mkLandmark 0.5 0.5) 16.

Definition pinching_hand : hand :=
  repeat (mkLandmark 0.5 0.5) 4 ++ [mkLandmark 0.4375 0.625] ++
  repeat (mkLandmark 0.5 0.5) 3 ++ [mkLandmark 0.4453125 0.6171875] ++
  repeat (mkLandmark 0.5 0.5) 12.

Definition unknown_location : location := (PyNone, PyStr "Unknown").

Definition failed_lookup : geocoder_result := mkGeo false PyNone PyNone.

Definition evening : datetime := mkDatetime 2024 3 9 21 15 7.

Definition afternoon : datetime := mkDatetime 2024 3 9 14 30 0.

(** No incident file yet, no fault pending. *)
Definition night_world : world := mkWorld (fun _ => evening) 0 None [] [].

Definition day_world : world := mkWorld (fun _ => afternoon) 0 None [] [].

(** The open is refused. *)
Definition denied_world : world :=
  mkWorld (fun _ => evening) 0 None [Some PermissionError] [].

(** The file exists; the open succeeds and the write of the row fails. *)
Definition full_disk_world : world :=
  mkWorld (fun _ => evening) 0 (Some [header]) [None; Some DiskFull] [].

(** The file exists and is empty. *)
Definition empty_file_world : world :=
  mkWorld (fun _ => evening) 0 (Some []) [] [].

(** A lookup that succeeded. *)
Definition known_location : location := (PyLatLng 28.625 77.25, PyStr "Delhi").

Definition two_incidents : list (string * location) :=
  [("SOS Gesture Detected", unknown_location);
   ("Woman Alone at Night", unknown_location)].

(** ** [detect_person_and_gender] (lines 80-118)

    The person detector and the gender net are pretrained models: what
    they answer for a frame is an input.  The arithmetic on the boxes, the
    tests and the list of genders are the program's. *)

(** [frame.shape] of a colour frame. *)
Record shape : Type := mkShape { height : Z; width : Z; channels : Z }.

(** The corners [(x1, y1, x2, y2)] of a box. *)
Definition bbox : Type := (Z * Z * Z * Z)%type.

(** One [box] of [result.boxes], with the answer of the gender net for
    the region cut for it. *)
Record detection : Type := mkDetection {
  xyxy : bbox;             (* map(int, box.xyxy[0]) *)
  confidence : pyfloat;    (* box.conf[0].item() *)
  cls : Z;                 (* int(box.cls[0].item()) *)
  gender_argmax : nat      (* gender_preds[0].argmax() *)
}.
Arguments mkDetection xyxy confidence%_float cls%_Z gender_argmax%_nat.

(** Line 92: the corners clamped to the frame. *)
Definition clamp_box (sh : shape) (b : bbox) : bbox :=
  let '(x1, y1, x2, y2) := b in
  (Z.max 0 x1, Z.max 0 y1, Z.min (width sh - 1) x2, Z.min (height sh - 1) y2)%Z.

(** Line 95. *)
Definition max_size (sh : shape) : Z := (Z.min (width sh) (height sh) / 3)%Z.

(** Lines 96-98 for x and 99-101 for y: a side longer than [max_size] is
    replaced by one around its centre. *)
Definition limit_side (bound lo hi size : Z) : Z * Z :=
  if (size <? hi - lo)%Z then
    let center := ((lo + hi) / 2)%Z in
    (Z.max 0 (center - size / 2), Z.min (bound - 1) (center + size / 2))%Z
  else (lo, hi).

Definition limit_box (sh : shape) (b : bbox) : bbox :=
  let '(x1, y1, x2, y2) := b in
  let '(x1, x2) := limit_side (width sh) x1 x2 (max_size sh) in
  let '(y1, y2) := limit_side (height sh) y1 y2 (max_size sh) in
  (x1, y1, x2, y2).

(** The box the program draws and cuts for a detection. *)
Definition region (sh : shape) (d : detection) : bbox :=
  limit_box sh (clamp_box sh (xyxy d)).

(** The length of [a[start:stop]] for a sequence of length [n]. *)
Definition slice_len (n start stop : Z) : Z :=
  let norm := fun i : Z => if (i <? 0)%Z then Z.max (i + n) 0 else Z.min i n in
  Z.max 0 (norm stop - norm start).

(** [frame[y1:y2, x1:x2].size] *)
Definition roi_size (sh : shape) (b : bbox) : Z :=
  let '(x1, y1, x2, y2) := b in
  (slice_len (height sh) y1 y2 * slice_len (width sh) x1 x2 * channels sh)%Z.

Definition gender_list : list string := ["Male"; "Female"].

(** [confidence > 0.5 and cls == 0] *)
Definition is_person (d : detection) : bool :=
  PrimFloat.ltb 0.5%float (confidence d) && (cls d =? 0)%Z.

(** The body of the inner loop for one box, [genders] being the list so
    far. *)
Definition detect_box (sh : shape) (genders : list string) (d : detection)
  : result (list string) :=
  let '(x1, y1, x2, y2) := region sh d in
  if is_person d then
    if (x1 <? x2)%Z && (y1 <? y2)%Z then
      if (0 <? roi_size sh (x1, y1, x2, y2))%Z then
        match index gender_list (gender_argmax d) with
        | Ok gender => Ok (genders ++ [gender])
        | Raise e => Raise e
        end
      else Ok genders
    else Ok genders
  else Ok genders.

(** [for box in result.boxes] *)
Fixpoint detect_boxes (sh : shape) (boxes : list detection) (genders : list string)
  : result (list string) :=
  match boxes with
  | [] => Ok genders
  | d :: rest =>
      match detect_box sh genders d with
      | Ok genders' => detect_boxes sh rest genders'
      | Raise e => Raise e
      end
  end.

(** [for result in results] *)
Fixpoint detect_results (sh : shape) (results : list (list detection))
    (genders : list string) : result (list string) :=
  match results with
  | [] => Ok genders
  | boxes :: rest =>
      match detect_boxes sh boxes genders with
      | Ok genders' => detect_results sh rest genders'
      | Raise e => Raise e
      end
  end.

Definition detect_person_and_gender (sh : shape) (results : list (list detection))
  : result (list string) :=
  detect_results sh results [].

(** ** The capture loop (lines 121-163) *)

(** What one pass of the loop meets after a successful [cap.read()]: the
    shape of the frame, the answers of the models for it, and the key code
    [cv2.waitKey(1)] returns at its end. *)
Record capture : Type := mkCapture {
  frame_shape : shape;
  results : list (list detection);
  hands_result : option (list hand);
  key : Z
}.

(** The reads of a run: [None] is a read with [ret] false; after the last
    one [cap.isOpened()] is false. *)
Definition feed : Type := list (option capture).

(** [ord('q')] *)
Definition ord_q : Z := 113.

(** [cv2.waitKey(1) & 0xFF == ord('q')] *)
Definition quit_key (k : Z) : bool := (Z.land k 255 =? ord_q)%Z.

(** Lines 129-160 for one frame; the value tells whether the loop breaks. *)
Definition loop_body (loc : location) (c : capture) : M bool :=
  genders <- lift (detect_person_and_gender (frame_shape c) (results c)) ;;
  process_frame genders (hands_result c) loc ;;
  ret (quit_key (key c)).

Fixpoint main_loop (loc : location) (reads_ahead : feed) : M unit :=
  match reads_ahead with
  | [] => ret tt
  | None :: _ => ret tt
  | Some c :: rest =>
      quit <- loop_body loc c ;;
      if quit then ret tt else main_loop loc rest
  end.

(** Line 122 resolves the location once, before the loop. *)
Definition main (g : geocoder_result) (reads_ahead : feed) : M unit :=
  let loc := get_location g in
  main_loop loc reads_ahead.

(** ** Notions for the detections *)

(** A box for which the gender net is asked: a person whose region is
    not empty. *)
Definition classified (sh : shape) (d : detection) : bool :=
  let '(x1, y1, x2, y2) := region sh d in
  is_person d && ((x1 <? x2)%Z && (y1 <? y2)%Z).

(** The entry of [gender_list] the net picks for a box. *)
Definition gender_of (d : detection) : string :=
  nth (gender_argmax d) gender_list "".

(** ** Notions for the capture loop *)

(** The incident types one pass of the loop passed to [log_incident]. *)
Definition body_incidents (loc : location) (c : capture) (w : world) : list string :=
  logged_types (new_events w (snd (loop_body loc c w))).

(** No box of the frame is a person. *)
Definition no_person (c : capture) : Prop :=
  Forall (fun d => is_person d = false) (List.concat (results c)).

(** The hands of the frame, if any, are complete and none has its thumb
    tip and index tip together. *)
Definition no_gesture (c : capture) : Prop :=
  landmarks_wf (hands_result c) /\
  forall hands h, hands_result c = Some hands -> In h hands -> ~ touching h.

(** The hands of the frame are complete and one of them has its thumb
    tip and index tip together. *)
Definition gesture (c : capture) : Prop :=
  landmarks_wf (hands_result c) /\
  exists hands h, hands_result c = Some hands /\ In h hands /\ touching h.

(** A read that succeeds on a frame with no person and no gesture, or
    that fails. *)
Definition quiet_read (r : option capture) : Prop :=
  match r with
  | Some c => no_person c /\ no_gesture c
  | None => True
  end.

(** A read that succeeds on a frame with no person and the gesture, and
    after which the quit key is not pressed. *)
Definition gesture_read (r : option capture) : Prop :=
  match r with
  | Some c => no_person c /\ gesture c /\ quit_key (key c) = false
  | None => False
  end.

(** A data row whose Incident Type field is the SOS label. *)
Definition sos_row (r : row) : Prop :=
  List.length r = 5 /\ nth_error r 2 = Some (PyStr "SOS Gesture Detected").

(** ** Sample frames *)

(** A frame of 480 rows, 640 columns and 3 channels. *)
Definition vga : shape := mkShape 480 640 3.

(** A tall person, classified female. *)
Definition woman_box : detection := mkDetection (100, 50, 200, 400)%Z 0.875 0 1.

(** Two persons classified male. *)
Definition man_box : detection := mkDetection (300, 60, 420, 470)%Z 0.75 0 0.

Definition far_man_box : detection := mkDetection (600, 200, 700, 260)%Z 0.625 0 0.

(** A person the detector is not confident about. *)
Definition faint_box : detection := mkDetection (10, 10, 50, 90)%Z 0.25 0 1.

(** A confident detection of another class. *)
Definition chair_box : detection := mkDetection (500, 300, 600, 460)%Z 0.9375 56 0.

Definition street : list (list detection) :=
  [[woman_box; faint_box; man_box]; [chair_box; far_man_box]].

(** Nobody in view, no hand, no key. *)
Definition empty_frame : capture := mkCapture vga [[faint_box; chair_box]] None (-1).

(** Nobody in view, the gesture shown, no key. *)
Definition gesture_frame : capture :=
  mkCapture vga [[chair_box]] (Some [open_hand; pinching_hand]) (-1).

(** Nobody in view, no hand, ['q'] pressed. *)
Definition quit_frame : capture := mkCapture vga [] None 113.

(** One woman and two men in view. *)
Definition street_frame : capture := mkCapture vga street None (-1).

(** The incident file holds a header and one row. *)
Definition logged_world : world :=
  mkWorld (fun _ => afternoon) 0
    (Some [header; data_row "SOS Gesture Detected" unknown_location evening]) [] [].

(** The open succeeds and the first write fails. *)
Definition first_write_fails_world : world :=
  mkWorld (fun _ => evening) 0 None [None; Some DiskFull] [].

(** * Properties *)

(** ** The nighttime test *)

(** C9: [is_nighttime] returns, never raises, and its value is [true]
    exactly when the hour of the current local time is below 6 or at
    least 18. *)
Theorem is_nighttime_iff (w : world) :
  exists b : bool,
    fst (is_nighttime w) = Ok b /\
    (b = true <-> hour (current_time w) < 6 \/ 18 <= hour (current_time w)).
Proof.
  unfold is_nighttime, bind, datetime_now, ret, current_time; cbn [fst].
  eexists; split; [reflexivity|].
  rewrite orb_true_iff, Nat.ltb_lt, Nat.leb_le. tauto.
Qed.

(** ** The SOS gesture *)

Lemma full_hand_index (h : hand) (i : nat) :
  full_hand h -> i < 21 -> exists l, nth_error h i = Some l.
Proof.
  unfold full_hand; intros Hlen Hi.
  destruct (nth_error h i) as [l|] eqn:E; [now exists l|].
  apply nth_error_None in E. lia.
Qed.

Lemma sos_loop_spec (hands : list hand) :
  Forall full_hand hands ->
  forall sos_detected : bool,
  exists flag : bool,
    sos_loop hands sos_detected = Ok flag /\
    (flag = true <-> sos_detected = true \/ exists h, In h hands /\ touching h).
Proof.
  induction 1 as [|h rest Hh Hrest IH]; intros b; simpl.
  - exists b; split; [reflexivity|].
    split; [auto|]. intros [Hb|[h [[] _]]]; exact Hb.
  - destruct (full_hand_index (i := THUMB_TIP) Hh) as [t Ht]; [unfold THUMB_TIP; lia|].
    destruct (full_hand_index (i := INDEX_FINGER_TIP) Hh) as [i Hi];
      [unfold INDEX_FINGER_TIP; lia|].
    unfold index; rewrite Ht, Hi.
    destruct (tips_touch t i) eqn:Etouch.
    + destruct (IH true) as [flag [Hrun Hflag]].
      exists flag; split; [exact Hrun|].
      assert (Hyes : flag = true) by (apply Hflag; now left).
      split; [|intros _; exact Hyes].
      intros _. right. exists h. split; [now left|].
      unfold tips_touch in Etouch. apply andb_true_iff in Etouch.
      exists t, i. tauto.
    + destruct (IH b) as [flag [Hrun Hflag]].
      exists flag; split; [exact Hrun|].
      rewrite Hflag. split.
      * intros [Hb|[h' [Hin Ht']]]; [now left|].
        right. exists h'. split; [now right|exact Ht'].
      * intros [Hb|[h' [[Heq|Hin] Ht']]]; [now left| |].
        -- subst h'. destruct Ht' as [t' [i' [Ht' [Hi' [Hx Hy]]]]].
           rewrite Ht in Ht'. rewrite Hi in Hi'.
           injection Ht' as <-. injection Hi' as <-.
           unfold tips_touch in Etouch. rewrite Hx, Hy in Etouch. discriminate.
        -- right. exists h'. split; assumption.
Qed.

(** C10: on the landmarks the hand model reports, [detect_sos_gesture]
    returns a flag that is [true] exactly when some reported hand has its
    thumb tip and its index-finger tip less than 0.02 apart in x and in
    y; with no hand landmarks the flag is [false]. *)
Theorem detect_sos_gesture_iff (multi_hand_landmarks : option (list hand)) :
  landmarks_wf multi_hand_landmarks ->
  exists sos_detected : bool,
    detect_sos_gesture multi_hand_landmarks = Ok sos_detected /\
    (sos_detected = true <->
       exists hands h,
         multi_hand_landmarks = Some hands /\ In h hands /\ touching h) /\
    (multi_hand_landmarks = None -> sos_detected = false).
Proof.
  destruct multi_hand_landmarks as [hands|]; simpl.
  - intros Hwf.
    destruct (sos_loop_spec Hwf false) as [flag [Hrun Hflag]].
    exists flag. split.
    + destruct hands; [simpl in Hrun; exact Hrun|exact Hrun].
    + split; [|discriminate].
      rewrite Hflag. split.
      * intros [Hf|[h [Hin Ht]]]; [discriminate|].
        exists hands, h. auto.
      * intros [hs [h [Heq [Hin Ht]]]]. injection Heq as <-.
        right. exists h. auto.
  - intros _. exists false. split; [reflexivity|]. split; [|reflexivity].
    split; [discriminate|]. intros [hs [h [Heq _]]]; discriminate.
Qed.

Lemma detect_sos_gesture_iff_witness :
  landmarks_wf (Some [open_hand; pinching_hand]) /\
  exists sos_detected : bool,
    detect_sos_gesture (Some [open_hand; pinching_hand]) = Ok sos_detected /\
    (sos_detected = true <->
       exists hands h,
         Some [open_hand; pinching_hand] = Some hands /\ In h hands /\ touching h) /\
    (Some [open_hand; pinching_hand] = None -> sos_detected = false).
Proof.
  assert (Hwf : landmarks_wf (Some [open_hand; pinching_hand])).
  { simpl. repeat constructor. }
  split; [exact Hwf|].
  exact (detect_sos_gesture_iff (Some [open_hand; pinching_hand]) Hwf).
Defined.

Example pinching_hand_detected :
  detect_sos_gesture (Some [open_hand; pinching_hand]) = Ok true.
Proof. reflexivity. Qed.

Example open_hand_not_detected :
  detect_sos_gesture (Some [open_hand]) = Ok false.
Proof. reflexivity. Qed.

(** ** Timestamps *)

Lemma occurs_app (c : ascii) (s1 s2 : string) :
  occurs c (s1 ++ s2) = occurs c s1 || occurs c s2.
Proof.
  induction s1 as [|a s1 IH]; simpl; [reflexivity|].
  now rewrite IH, orb_assoc.
Qed.

Lemma split_free (sep : ascii) (s : string) :
  occurs sep s = false -> split sep s = [s].
Proof.
  induction s as [|a s IH]; simpl; [reflexivity|].
  intros H. apply orb_false_iff in H as [Ha Hs].
  rewrite Ha, (IH Hs). reflexivity.
Qed.

Lemma split_app (sep : ascii) (s1 s2 : string) :
  occurs sep s1 = false ->
  split sep (s1 ++ String sep s2) = s1 :: split sep s2.
Proof.
  induction s1 as [|a s1 IH]; simpl.
  - intros _. now rewrite Ascii.eqb_refl.
  - intros H. apply orb_false_iff in H as [Ha Hs].
    rewrite Ha, (IH Hs). reflexivity.
Qed.

Lemma occurs_digits (u : Decimal.uint) :
  occurs " " (NilEmpty.string_of_uint u) = false.
Proof. induction u; simpl; auto. Qed.

Lemma occurs_zeros (n : nat) : occurs " " (zeros n) = false.
Proof. induction n; simpl; auto. Qed.

Lemma occurs_zfill (width n : nat) : occurs " " (zfill width n) = false.
Proof.
  unfold zfill, str_nat. now rewrite occurs_app, occurs_zeros, occurs_digits.
Qed.

Lemma occurs_fmt_date (d : datetime) : occurs " " (fmt_date d) = false.
Proof.
  unfold fmt_date. now rewrite !occurs_app, !occurs_zfill.
Qed.

Lemma occurs_fmt_time (d : datetime) : occurs " " (fmt_time d) = false.
Proof.
  unfold fmt_time. now rewrite !occurs_app, !occurs_zfill.
Qed.

(** The timestamp always splits into its date and its time, so that
    [date_time[0]] and [date_time[1]] exist. *)
Lemma split_strftime (d : datetime) :
  split " " (strftime d) = [fmt_date d; fmt_time d].
Proof.
  unfold strftime.
  change (fmt_date d ++ " " ++ fmt_time d)%string
    with (fmt_date d ++ String " " (fmt_time d))%string.
  rewrite split_app by apply occurs_fmt_date.
  now rewrite split_free by apply occurs_fmt_time.
Qed.

Arguments strftime : simpl never.
Arguments fmt_date : simpl never.
Arguments fmt_time : simpl never.
Arguments str_nat : simpl never.

(** ** The incident log *)

(** Runs [log_incident] on a world whose file and pending outcomes are
    known constructors. *)
Ltac run_log :=
  unfold log_incident, with_open_append, open_append, writerow, close,
    os_path_isfile, datetime_now, emit, file_op, lift, bind, ret, raise,
    set_file, set_faults, current_time;
  cbn -[split strftime];
  rewrite ?split_strftime; cbn -[split strftime].

(** With no fault pending [log_incident] returns, having written the
    header when the file was absent and then its data row. *)
Lemma log_incident_ok (t : string) (loc : location) (w : world) :
  io_faults w = [] ->
  log_incident t loc w =
    (Ok tt,
     mkWorld (clock w) (S (reads w))
       (Some (rows_with_header (incident_file w) ++ [data_row t loc (current_time w)]))
       [] (events w ++ [ELogIncident t loc])).
Proof.
  destruct w as [clk rd [rows|] fl evs]; simpl; intros ->; run_log; reflexivity.
Qed.

(** Whatever the faults, [log_incident] leaves exactly its own entry in
    the history. *)
Lemma log_incident_events (t : string) (loc : location) (w : world) :
  events (snd (log_incident t loc w)) = events w ++ [ELogIncident t loc].
Proof.
  destruct w as [clk rd [rows|] fl evs];
  destruct fl as [|[e1|] [|[e2|] [|[e3|] [|[e4|] rest]]]]; run_log; reflexivity.
Qed.

Ltac settle_fault :=
  repeat match goal with
  | |- _ /\ _ => split
  | |- _ <-> _ => split
  | |- forall _, _ => intro
  | H : Raise _ = Raise _ |- _ => injection H as H; subst
  | H : Ok _ = Raise _ |- _ => discriminate H
  | H : Raise _ = Ok _ |- _ => discriminate H
  | H : exists _, _ |- _ => destruct H
  | H : In _ (_ :: _) |- _ => destruct H
  | H : In _ [] |- _ => destruct H
  | H : False |- _ => destruct H
  | H : _ \/ _ |- _ => destruct H
  | H : None = Some _ |- _ => discriminate H
  | H : Some _ = Some _ |- _ => injection H as H; subst
  end;
  try reflexivity;
  try solve [simpl; auto 8];
  try solve [eexists; reflexivity];
  try solve [eexists; simpl; eauto 8].

(** C7: [log_incident] raises exactly when one of the file operations it
    performs (the open, a row write, the closing flush) raises; the
    exception that reaches the caller is one raised by such an operation;
    and a normal return means the data row is in the file. *)
Theorem log_incident_surfaces_failure (t : string) (loc : location) (w : world) :
  let run := log_incident t loc w in
  (forall e, fst run = Raise e -> In (Some e) (coming_outcomes w)) /\
  ((exists e, fst run = Raise e) <-> (exists e, In (Some e) (coming_outcomes w))) /\
  (fst run = Ok tt ->
   incident_file (snd run) =
     Some (rows_with_header (incident_file w) ++ [data_row t loc (current_time w)])).
Proof.
  unfold coming_outcomes, file_ops.
  destruct w as [clk rd [rows|] fl evs];
  destruct fl as [|[e1|] [|[e2|] [|[e3|] [|[e4|] rest]]]];
  run_log; settle_fault.
Qed.

Lemma data_rows_length (clk : nat -> datetime) (incidents : list (string * location)) :
  forall n, List.length (data_rows clk n incidents) = List.length incidents.
Proof.
  induction incidents as [|[t loc] rest IH]; intros n; simpl; [reflexivity|].
  now rewrite IH.
Qed.

Lemma data_rows_fields (clk : nat -> datetime) (incidents : list (string * location)) :
  forall n, Forall (fun r => List.length r = 5) (data_rows clk n incidents).
Proof.
  induction incidents as [|[t loc] rest IH]; intros n; simpl; constructor.
  - reflexivity.
  - apply IH.
Qed.

(** Appends to a file that exists, with no fault pending: every call adds
    its row after the rows already there. *)
Lemma log_all_existing (incidents : list (string * location)) :
  forall (w : world) (rows : list row),
    io_faults w = [] ->
    incident_file w = Some rows ->
    let run := log_all incidents w in
    fst run = Ok tt /\
    incident_file (snd run) = Some (rows ++ data_rows (clock w) (reads w) incidents).
Proof.
  induction incidents as [|[t loc] rest IH]; intros w rows Hok Hfile; simpl.
  - rewrite app_nil_r. auto.
  - unfold bind. rewrite (log_incident_ok t loc w Hok).
    rewrite Hfile; simpl rows_with_header.
    set (w1 := mkWorld _ _ _ _ _).
    destruct (IH w1 (rows ++ [data_row t loc (current_time w)]) eq_refl eq_refl)
      as [Hres Hrows].
    split; [exact Hres|].
    rewrite Hrows. subst w1; simpl.
    now rewrite <- app_assoc.
Qed.

(** Whatever the faults, a call never changes the rows that were in the
    file: it can only add rows after them. *)
Lemma log_incident_keeps_rows (t : string) (loc : location) (w : world)
    (old : list row) :
  incident_file w = Some old ->
  exists added : list row,
    incident_file (snd (log_incident t loc w)) = Some (old ++ added).
Proof.
  destruct w as [clk rd [rows|] fl evs]; simpl; intros H; [|discriminate].
  injection H as ->.
  destruct fl as [|[e1|] [|[e2|] [|[e3|] rest]]]; run_log;
    solve [ exists []; now rewrite app_nil_r | eexists; reflexivity ].
Qed.

(** C6: with no fault pending, a call of [log_incident] writes the header
    exactly when the file is absent and then one data row of 5 fields;
    one or more calls in sequence on an absent file leave the header
    followed by the data rows in call order, one more row than calls; and
    no call, whatever the faults, changes a row that was in the file. *)
Theorem log_incident_appends (w : world) (t : string) (loc : location)
    (incidents : list (string * location)) :
  io_faults w = [] ->
  let written := data_row t loc (current_time w) in
  let run := log_incident t loc w in
  header = [PyStr "Date"; PyStr "Time"; PyStr "Incident Type"; PyStr "Location";
            PyStr "Coordinates"] /\
  fst run = Ok tt /\
  List.length written = 5 /\
  (incident_file w = None -> incident_file (snd run) = Some [header; written]) /\
  (forall rows, incident_file w = Some rows ->
                incident_file (snd run) = Some (rows ++ [written])) /\
  (incident_file w = None ->
   let stored := header :: written :: data_rows (clock w) (S (reads w)) incidents in
   fst (log_all ((t, loc) :: incidents) w) = Ok tt /\
   incident_file (snd (log_all ((t, loc) :: incidents) w)) = Some stored /\
   List.length stored = List.length ((t, loc) :: incidents) + 1 /\
   Forall (fun r => List.length r = 5) (tl stored)) /\
  (forall (w' : world) (t' : string) (loc' : location) (old : list row),
     incident_file w' = Some old ->
     exists added, incident_file (snd (log_incident t' loc' w')) = Some (old ++ added)).
Proof.
  intros Hok written run.
  assert (Hrun : run = _) by exact (log_incident_ok t loc w Hok).
  repeat split.
  - now rewrite Hrun.
  - rewrite Hrun; simpl. intros ->. reflexivity.
  - rewrite Hrun; simpl. intros rows ->. reflexivity.
  - simpl. unfold bind. fold run. rewrite Hrun. rewrite H. simpl rows_with_header.
    set (w1 := mkWorld _ _ _ _ _).
    now destruct (log_all_existing incidents w1 (rows := [header] ++ [written])
                    eq_refl eq_refl).
  - simpl. unfold bind. fold run. rewrite Hrun. rewrite H. simpl rows_with_header.
    set (w1 := mkWorld _ _ _ _ _).
    destruct (log_all_existing incidents w1 (rows := [header] ++ [written])
                eq_refl eq_refl) as [_ Hrows].
    rewrite Hrows. reflexivity.
  - simpl. rewrite data_rows_length. lia.
  - simpl. constructor; [reflexivity|apply data_rows_fields].
  - intros w' t' loc' old. apply log_incident_keeps_rows.
Qed.

(** ** The alert conditions *)

(** Unfolds the conditions down to the calls of [log_incident]. *)
Ltac open_conditions :=
  unfold spec_decision, night, current_time;
  cbv [check_alerts and_then is_nighttime bind ret datetime_now
       start_alert_thread emit negb].

(** Reduces what is decided, keeping the tests and the labels folded. *)
Ltac tidy := cbn -[log_incident append str_nat Nat.ltb Nat.leb Nat.eqb].

(** A block that runs: its events are those [log_incident] leaves,
    whether it returns or raises. *)
Ltac fire :=
  tidy;
  lazymatch goal with
  | |- context [log_incident ?t ?l ?w1] =>
      let H := fresh "Hev" in
      pose proof (log_incident_events t l w1) as H;
      destruct (log_incident t l w1) as [[[]|?] ?];
      cbn -[append str_nat] in H |- *; rewrite H;
      rewrite <- ?app_assoc; reflexivity
  end.

(** Whatever the faults, the conditions of a frame add to the history
    the entries of the first condition that holds, and nothing else. *)
Lemma check_alerts_events (m f : nat) (sos : bool) (loc : location) (w : world) :
  events (snd (check_alerts m f sos loc w)) =
  events w ++ alert_events (spec_decision (night w) m f sos) loc.
Proof.
  open_conditions.
  destruct (_ && (f =? 1) && (m =? 0)); [fire|].
  destruct sos; [fire|].
  tidy.
  destruct ((f =? 1) && (1 <? m)); [fire|].
  cbn. now rewrite app_nil_r.
Qed.

(** When no condition holds the frame changes nothing but the clock
    reading it took. *)
Lemma check_alerts_none (m f : nat) (sos : bool) (loc : location) (w : world) :
  spec_decision (night w) m f sos = None ->
  check_alerts m f sos loc w =
    (Ok false,
     mkWorld (clock w) (S (reads w)) (incident_file w) (io_faults w) (events w)).
Proof.
  open_conditions.
  destruct (_ && (f =? 1) && (m =? 0)); [discriminate|].
  destruct sos; [discriminate|].
  tidy.
  destruct ((f =? 1) && (1 <? m)); [discriminate|].
  reflexivity.
Qed.

(** With no fault pending, the condition that holds first has its row
    written and the frame ends with [alert_triggered] set. *)
Lemma check_alerts_ok (m f : nat) (sos : bool) (loc : location) (w : world)
    (c : IncidentCondition) :
  io_faults w = [] ->
  spec_decision (night w) m f sos = Some c ->
  check_alerts m f sos loc w =
    (Ok true,
     mkWorld (clock w) (S (S (reads w)))
       (Some (rows_with_header (incident_file w) ++
              [data_row (spec_label c) loc (clock w (S (reads w)))]))
       [] (events w ++ [EAlertThread; ELogIncident (spec_label c) loc])).
Proof.
  intros Hok.
  open_conditions.
  destruct (_ && (f =? 1) && (m =? 0));
    [|destruct sos;
      [|tidy; destruct ((f =? 1) && (1 <? m));
        [|discriminate]]];
  intros Hc; injection Hc as <-; tidy;
  rewrite log_incident_ok by exact Hok;
  cbn -[append str_nat]; rewrite <- app_assoc; reflexivity.
Qed.

Lemma new_events_app (w w' : world) (added : list event) :
  events w' = events w ++ added -> new_events w w' = added.
Proof.
  unfold new_events. intros ->.
  rewrite skipn_app, skipn_all, Nat.sub_diag. reflexivity.
Qed.

(** The incident types of a frame are the label of the condition that
    holds first, if any. *)
Lemma frame_incidents_decision (m f : nat) (sos : bool) (loc : location) (w : world) :
  frame_incidents m f sos loc w =
  match spec_decision (night w) m f sos with
  | Some c => [spec_label c]
  | None => []
  end.
Proof.
  unfold frame_incidents.
  rewrite (@new_events_app w _ _ (check_alerts_events m f sos loc w)).
  destruct (spec_decision (night w) m f sos); reflexivity.
Qed.

Lemma night_iff (w : world) :
  night w = true <-> hour (current_time w) < 6 \/ 18 <= hour (current_time w).
Proof.
  unfold night. now rewrite orb_true_iff, Nat.ltb_lt, Nat.leb_le.
Qed.

(** Case analysis on the three guards, with the tests turned into facts. *)
Ltac by_guards m f sos w :=
  rewrite !frame_incidents_decision; unfold spec_decision;
  try rewrite <- night_iff;
  destruct (night w) eqn:?, (Nat.eqb_spec f 1), (Nat.eqb_spec m 0),
    (Nat.ltb_spec 1 m), sos;
  cbn -[str_nat].

Ltac settle_guards :=
  repeat match goal with
  | |- _ <-> _ => split
  | |- _ /\ _ => split
  | |- ~ _ => intro
  | |- _ -> _ => intro
  | H : _ /\ _ |- _ => destruct H
  | H : _ \/ _ |- _ => destruct H
  | H : False |- _ => destruct H
  | H : String _ _ = String _ _ |- _ => discriminate H
  | H : true = false |- _ => discriminate H
  | H : false = true |- _ => discriminate H
  end;
  try solve [auto | lia | exfalso; auto | exfalso; lia | tauto].

(** C1: the frame logs "Woman Alone at Night" exactly when it is night,
    one female and no male are counted, whatever [sos_detected] is. *)
Theorem lone_woman_at_night_iff (num_males num_females : nat) (sos_detected : bool)
    (loc : location) (w : world) :
  In "Woman Alone at Night" (frame_incidents num_males num_females sos_detected loc w)
  <->
  (hour (current_time w) < 6 \/ 18 <= hour (current_time w)) /\
  num_females = 1 /\ num_males = 0.
Proof.
  by_guards num_males num_females sos_detected w; settle_guards.
Qed.

(** C2: the frame logs "SOS Gesture Detected" exactly when it did not
    log "Woman Alone at Night" and [sos_detected] holds. *)
Theorem sos_gesture_iff (num_males num_females : nat) (sos_detected : bool)
    (loc : location) (w : world) :
  In "SOS Gesture Detected" (frame_incidents num_males num_females sos_detected loc w)
  <->
  ~ In "Woman Alone at Night" (frame_incidents num_males num_females sos_detected loc w) /\
  sos_detected = true.
Proof.
  by_guards num_males num_females sos_detected w; settle_guards.
Qed.

Lemma spec_decision_none (n : bool) (m f : nat) (sos : bool) :
  ~ (n = true /\ f = 1 /\ m = 0) ->
  sos = false ->
  ~ (f = 1 /\ 1 < m) ->
  spec_decision n m f sos = None.
Proof.
  unfold spec_decision.
  destruct n, (Nat.eqb_spec f 1), (Nat.eqb_spec m 0), (Nat.ltb_spec 1 m), sos;
    cbn; settle_guards.
Qed.

(** C3: the frame logs "1 Female with {num_males} Males" exactly when it
    logged neither of the first two types, one female is counted and more
    than one male; in every remaining case the frame logs nothing, starts
    no alert and leaves the incident file as it was. *)
Theorem woman_surrounded_iff (num_males num_females : nat) (sos_detected : bool)
    (loc : location) (w : world) :
  (In ("1 Female with " ++ str_nat num_males ++ " Males")%string
      (frame_incidents num_males num_females sos_detected loc w)
   <->
   ~ In "Woman Alone at Night" (frame_incidents num_males num_females sos_detected loc w) /\
   ~ In "SOS Gesture Detected" (frame_incidents num_males num_females sos_detected loc w) /\
   num_females = 1 /\ 1 < num_males) /\
  (~ ((hour (current_time w) < 6 \/ 18 <= hour (current_time w)) /\
      num_females = 1 /\ num_males = 0) ->
   sos_detected = false ->
   ~ (num_females = 1 /\ 1 < num_males) ->
   frame_incidents num_males num_females sos_detected loc w = [] /\
   fst (check_alerts num_males num_females sos_detected loc w) = Ok false /\
   new_events w (snd (check_alerts num_males num_females sos_detected loc w)) = [] /\
   incident_file (snd (check_alerts num_males num_females sos_detected loc w)) =
     incident_file w).
Proof.
  split.
  - by_guards num_males num_females sos_detected w; settle_guards.
  - intros H1 H2 H3. rewrite <- night_iff in H1.
    pose proof (spec_decision_none H1 H2 H3) as Hnone.
    rewrite frame_incidents_decision, Hnone.
    rewrite (check_alerts_none _ _ _ loc _ Hnone). cbn.
    repeat split. unfold new_events; cbn. apply skipn_all.
Qed.

(** C4: a frame logs at most one incident; the first condition that
    holds, in the order of the source, is the one logged and the later
    ones are skipped; a night frame with one female, no male and the
    gesture logs "Woman Alone at Night" and not "SOS Gesture Detected". *)
Theorem at_most_one_incident (num_males num_females : nat) (sos_detected : bool)
    (loc : location) (w : world) :
  let incidents := frame_incidents num_males num_females sos_detected loc w in
  let is_night := hour (current_time w) < 6 \/ 18 <= hour (current_time w) in
  let rule1 := is_night /\ num_females = 1 /\ num_males = 0 in
  let rule2 := sos_detected = true in
  let rule3 := num_females = 1 /\ 1 < num_males in
  List.length incidents <= 1 /\
  List.length (filter (fun ev => match ev with EAlertThread => true | _ => false end)
                 (new_events w (snd (check_alerts num_males num_females sos_detected loc w))))
    <= 1 /\
  (rule1 -> incidents = ["Woman Alone at Night"]) /\
  (~ rule1 -> rule2 -> incidents = ["SOS Gesture Detected"]) /\
  (~ rule1 -> ~ rule2 -> rule3 ->
   incidents = [("1 Female with " ++ str_nat num_males ++ " Males")%string]) /\
  (is_night ->
   frame_incidents 0 1 true loc w = ["Woman Alone at Night"] /\
   ~ In "SOS Gesture Detected" (frame_incidents 0 1 true loc w)).
Proof.
  cbv zeta.
  rewrite (@new_events_app w _ _ (check_alerts_events num_males num_females sos_detected loc w)).
  split; [|split; [|split; [|split; [|split]]]].
  - rewrite frame_incidents_decision.
    destruct (spec_decision _ _ _ _); simpl; lia.
  - destruct (spec_decision _ _ _ _); simpl; lia.
  - by_guards num_males num_females sos_detected w; settle_guards.
  - by_guards num_males num_females sos_detected w; settle_guards.
  - by_guards num_males num_females sos_detected w; settle_guards.
  - rewrite <- night_iff. intros Hn.
    rewrite !frame_incidents_decision. unfold spec_decision.
    rewrite Hn. cbn. settle_guards.
Qed.

(** ** What is persisted *)

Lemma spec_decision_rule1 (n : bool) (m f : nat) (sos : bool) :
  n = true /\ f = 1 /\ m = 0 -> spec_decision n m f sos = Some LoneWomanAtNight.
Proof. intros [-> [-> ->]]. reflexivity. Qed.

Lemma spec_decision_rule2 (n : bool) (m f : nat) (sos : bool) :
  ~ (n = true /\ f = 1 /\ m = 0) -> sos = true ->
  spec_decision n m f sos = Some SosGesture.
Proof.
  unfold spec_decision. intros H ->.
  destruct n, (Nat.eqb_spec f 1), (Nat.eqb_spec m 0); cbn; settle_guards.
Qed.

Lemma spec_decision_rule3 (n : bool) (m f : nat) (sos : bool) :
  ~ (n = true /\ f = 1 /\ m = 0) -> sos <> true -> f = 1 /\ 1 < m ->
  spec_decision n m f sos = Some (WomanSurroundedByMales m).
Proof.
  unfold spec_decision. intros H Hs [-> Hm].
  destruct n, (Nat.eqb_spec m 0), (Nat.ltb_spec 1 m), sos; cbn; settle_guards.
Qed.

Lemma last_row_after (m f : nat) (sos : bool) (loc : location) (w : world)
    (c : IncidentCondition) :
  io_faults w = [] ->
  spec_decision (night w) m f sos = Some c ->
  last_row (snd (check_alerts m f sos loc w)) =
    Some (data_row (spec_label c) loc (clock w (S (reads w)))).
Proof.
  intros Hok Hc. rewrite (@check_alerts_ok m f sos loc w c Hok Hc).
  unfold last_row; cbn [snd incident_file]. now rewrite last_last.
Qed.

(** C5: with no fault pending, the Incident Type field of the row a frame
    leaves last in the file is "Woman Alone at Night" when the first
    condition holds, "SOS Gesture Detected" when the second is the first
    to hold, and "1 Female with {n} Males", [n] the decimal male count,
    when the third is; for 3 males this is "1 Female with 3 Males". *)
Theorem persisted_label (num_males num_females : nat) (sos_detected : bool)
    (loc : location) (w : world) :
  io_faults w = [] ->
  let stored := snd (check_alerts num_males num_females sos_detected loc w) in
  let is_night := hour (current_time w) < 6 \/ 18 <= hour (current_time w) in
  let rule1 := is_night /\ num_females = 1 /\ num_males = 0 in
  let rule2 := sos_detected = true in
  let rule3 := num_females = 1 /\ 1 < num_males in
  (rule1 -> persisted_type stored = Some (PyStr "Woman Alone at Night")) /\
  (~ rule1 -> rule2 -> persisted_type stored = Some (PyStr "SOS Gesture Detected")) /\
  (~ rule1 -> ~ rule2 -> rule3 ->
   persisted_type stored =
     Some (PyStr ("1 Female with " ++ str_nat num_males ++ " Males"))) /\
  ("1 Female with " ++ str_nat 3 ++ " Males")%string = "1 Female with 3 Males".
Proof.
  intros Hok; cbv zeta. rewrite <- night_iff. unfold persisted_type.
  split; [|split; [|split]].
  - intros H. now rewrite (@last_row_after num_males num_females sos_detected loc w _ Hok (@spec_decision_rule1 _ _ _ sos_detected H)).
  - intros H1 H2. now rewrite (@last_row_after num_males num_females sos_detected loc w _ Hok (@spec_decision_rule2 _ _ _ _ H1 H2)).
  - intros H1 H2 H3. now rewrite (@last_row_after num_males num_females sos_detected loc w _ Hok (@spec_decision_rule3 _ _ _ _ H1 H2 H3)).
  - reflexivity.
Qed.

(** C8: when the geocoder answers not-ok, [get_location] gives [None]
    for the coordinates and "Unknown" for the city; with this location
    and no fault pending, the conditions of a frame and [log_incident]
    return without an exception, and the row written carries "Unknown"
    and [None] in its Location and Coordinates fields. *)
Theorem unknown_location_accepted (g : geocoder_result)
    (num_males num_females : nat) (sos_detected : bool) (t : string) (w : world) :
  ok g = false ->
  io_faults w = [] ->
  let loc := get_location g in
  loc = (PyNone, PyStr "Unknown") /\
  (exists alert_triggered : bool,
     fst (check_alerts num_males num_females sos_detected loc w) = Ok alert_triggered) /\
  (forall logged : string,
     frame_incidents num_males num_females sos_detected loc w = [logged] ->
     exists date time : string,
       last_row (snd (check_alerts num_males num_females sos_detected loc w)) =
         Some [PyStr date; PyStr time; PyStr logged; PyStr "Unknown"; PyNone]) /\
  fst (log_incident t loc w) = Ok tt /\
  (exists date time : string,
     last_row (snd (log_incident t loc w)) =
       Some [PyStr date; PyStr time; PyStr t; PyStr "Unknown"; PyNone]).
Proof.
  intros Hg Hok loc.
  assert (Hloc : loc = (PyNone, PyStr "Unknown")).
  { unfold loc, get_location. now rewrite Hg. }
  rewrite Hloc.
  split; [reflexivity|].
  split; [|split; [|split]].
  - destruct (spec_decision (night w) num_males num_females sos_detected) as [c|] eqn:Hc.
    + exists true. now rewrite (@check_alerts_ok _ _ _ (PyNone, PyStr "Unknown") _ _ Hok Hc).
    + exists false. now rewrite (@check_alerts_none _ _ _ (PyNone, PyStr "Unknown") _ Hc).
  - intros logged. rewrite frame_incidents_decision.
    destruct (spec_decision (night w) num_males num_females sos_detected) as [c|] eqn:Hc;
      [|discriminate].
    intros Hl. injection Hl as <-.
    rewrite (@last_row_after _ _ _ (PyNone, PyStr "Unknown") _ _ Hok Hc).
    eexists; eexists; reflexivity.
  - now rewrite (@log_incident_ok t (PyNone, PyStr "Unknown") w Hok).
  - rewrite (@log_incident_ok t (PyNone, PyStr "Unknown") w Hok). unfold last_row; cbn [snd incident_file].
    rewrite last_last. eexists; eexists; reflexivity.
Qed.

(** ** Frames *)

(** The body of the loop runs the conditions on the counts of the
    [genders] list and on the flag of [detect_sos_gesture]. *)
Lemma process_frame_conditions (genders : list string)
    (multi_hand_landmarks : option (list hand)) (loc : location) (w : world)
    (sos_detected : bool) :
  detect_sos_gesture multi_hand_landmarks = Ok sos_detected ->
  process_frame genders multi_hand_landmarks loc w =
    check_alerts (count_occ string_dec genders "Male")
                 (count_occ string_dec genders "Female") sos_detected loc w.
Proof.
  intros H. unfold process_frame, bind, lift. now rewrite H.
Qed.

(** ** The properties at sample inputs *)

Lemma persisted_label_witness :
  io_faults night_world = [] /\
  persisted_type (snd (check_alerts 0 1 false unknown_location night_world)) =
    Some (PyStr "Woman Alone at Night").
Proof.
  split; [reflexivity|].
  apply (proj1 (@persisted_label 0 1 false unknown_location night_world eq_refl)).
  cbn. split; [right; lia|split; reflexivity].
Defined.

Lemma log_incident_appends_witness :
  io_faults night_world = [] /\
  incident_file (snd (log_all two_incidents night_world)) =
    Some [header;
          [PyStr "2024-03-09"; PyStr "21:15:07"; PyStr "SOS Gesture Detected";
           PyStr "Unknown"; PyNone];
          [PyStr "2024-03-09"; PyStr "21:15:07"; PyStr "Woman Alone at Night";
           PyStr "Unknown"; PyNone]].
Proof.
  split; [reflexivity|].
  destruct (@log_incident_appends night_world "SOS Gesture Detected" unknown_location
              [("Woman Alone at Night", unknown_location)] eq_refl)
    as (_ & _ & _ & _ & _ & Hseq & _).
  destruct (Hseq eq_refl) as (_ & Hfile & _).
  exact Hfile.
Defined.

Lemma unknown_location_accepted_witness :
  ok failed_lookup = false /\
  io_faults night_world = [] /\
  get_location failed_lookup = (PyNone, PyStr "Unknown") /\
  fst (log_incident "SOS Gesture Detected" (get_location failed_lookup) night_world) =
    Ok tt.
Proof.
  split; [reflexivity|]. split; [reflexivity|].
  destruct (@unknown_location_accepted failed_lookup 0 0 true "SOS Gesture Detected"
              night_world eq_refl eq_refl)
    as (Hloc & _ & _ & Hlog & _).
  split; assumption.
Defined.

(** The scenarios of section 8 of the specification. *)
Example scenario_lone_woman :
  frame_incidents 0 1 false unknown_location night_world = ["Woman Alone at Night"].
Proof. reflexivity. Qed.

Example scenario_surrounded :
  frame_incidents 3 1 false unknown_location day_world = ["1 Female with 3 Males"] /\
  persisted_type (snd (check_alerts 3 1 false unknown_location day_world)) =
    Some (PyStr "1 Female with 3 Males").
Proof. split; reflexivity. Qed.

Example scenario_gesture :
  frame_incidents 0 0 true unknown_location night_world = ["SOS Gesture Detected"].
Proof. reflexivity. Qed.

Example scenario_group :
  frame_incidents 2 2 false unknown_location night_world = [].
Proof. reflexivity. Qed.

Example scenario_two_rules :
  frame_incidents 0 1 true unknown_location night_world = ["Woman Alone at Night"].
Proof. reflexivity. Qed.

(** A refused open reaches the caller and creates no file. *)
Example permission_denied :
  log_incident "SOS Gesture Detected" unknown_location denied_world =
    (Raise PermissionError,
     mkWorld (fun _ => evening) 0 None []
       [ELogIncident "SOS Gesture Detected" unknown_location]).
Proof. reflexivity. Qed.

(** A failed write reaches the caller and the row is not in the file. *)
Example disk_full :
  fst (log_incident "SOS Gesture Detected" unknown_location full_disk_world) =
    Raise DiskFull /\
  incident_file (snd (log_incident "SOS Gesture Detected" unknown_location
                        full_disk_world)) = Some [header].
Proof. split; reflexivity. Qed.

(** The city goes to the Location field and the coordinates to the
    Coordinates field. *)
Example known_location_row :
  last_row (snd (log_incident "SOS Gesture Detected" known_location night_world)) =
    Some [PyStr "2024-03-09"; PyStr "21:15:07"; PyStr "SOS Gesture Detected";
          PyStr "Delhi"; PyLatLng 28.625 77.25].
Proof. reflexivity. Qed.

(** The header depends on the file being absent, not on its being empty. *)
Example empty_file_gets_no_header :
  incident_file (snd (log_incident "SOS Gesture Detected" unknown_location
                        empty_file_world)) =
    Some [[PyStr "2024-03-09"; PyStr "21:15:07"; PyStr "SOS Gesture Detected";
           PyStr "Unknown"; PyNone]].
Proof. reflexivity. Qed.

(** * Further properties *)

(** ** The boxes of [detect_person_and_gender] *)

Lemma limit_side_bounds (bound lo hi size : Z) :
  (0 <= lo -> hi <= bound - 1 ->
   0 <= fst (limit_side bound lo hi size) /\
   snd (limit_side bound lo hi size) <= bound - 1)%Z.
Proof.
  unfold limit_side. destruct (Z.ltb_spec size (hi - lo)); cbn; lia.
Qed.

Lemma limit_side_length (bound lo hi size : Z) :
  (snd (limit_side bound lo hi size) - fst (limit_side bound lo hi size) <= size)%Z.
Proof.
  unfold limit_side. destruct (Z.ltb_spec size (hi - lo)); cbn; [|lia].
  pose proof (Z.mul_div_le size 2 eq_refl). lia.
Qed.

Lemma adjust_bounds (sh : shape) (b : bbox) :
  let '(x1, y1, x2, y2) := limit_box sh (clamp_box sh b) in
  (0 <= x1 /\ 0 <= y1 /\ x2 <= width sh - 1 /\ y2 <= height sh - 1)%Z.
Proof.
  unfold limit_box, clamp_box.
  destruct b as [[[a b] c] e].
  pose proof (@limit_side_bounds (width sh) (Z.max 0 a) (Z.min (width sh - 1) c)
                (max_size sh)) as Hx.
  pose proof (@limit_side_bounds (height sh) (Z.max 0 b) (Z.min (height sh - 1) e)
                (max_size sh)) as Hy.
  destruct (limit_side (width sh) _ _ _) as [x1 x2].
  destruct (limit_side (height sh) _ _ _) as [y1 y2].
  cbn in *. lia.
Qed.

Lemma adjust_length (sh : shape) (b : bbox) :
  let '(x1, y1, x2, y2) := limit_box sh (clamp_box sh b) in
  (x2 - x1 <= max_size sh /\ y2 - y1 <= max_size sh)%Z.
Proof.
  unfold limit_box, clamp_box.
  destruct b as [[[a b] c] e].
  pose proof (limit_side_length (width sh) (Z.max 0 a) (Z.min (width sh - 1) c)
                (max_size sh)) as Hx.
  pose proof (limit_side_length (height sh) (Z.max 0 b) (Z.min (height sh - 1) e)
                (max_size sh)) as Hy.
  destruct (limit_side (width sh) _ _ _) as [x1 x2].
  destruct (limit_side (height sh) _ _ _) as [y1 y2].
  cbn in *. lia.
Qed.

(** A box inside the frame whose sides are short enough is left as it is. *)
Lemma adjust_stable (sh : shape) (x1 y1 x2 y2 : Z) :
  (0 <= x1 -> 0 <= y1 -> x2 <= width sh - 1 -> y2 <= height sh - 1 ->
   x2 - x1 <= max_size sh -> y2 - y1 <= max_size sh ->
   limit_box sh (clamp_box sh (x1, y1, x2, y2)) = (x1, y1, x2, y2))%Z.
Proof.
  intros. unfold clamp_box, limit_box.
  rewrite (Z.max_r 0 x1), (Z.max_r 0 y1), (Z.min_r (width sh - 1) x2),
    (Z.min_r (height sh - 1) y2) by lia.
  unfold limit_side.
  destruct (Z.ltb_spec (max_size sh) (x2 - x1)); [lia|].
  destruct (Z.ltb_spec (max_size sh) (y2 - y1)); [lia|].
  reflexivity.
Qed.

(** X1: Whatever the detector reports, the box the program draws and cuts
    starts at or after 0 and ends at or before the last column and row
    of the frame. *)
Theorem region_in_frame (sh : shape) (d : detection) :
  let '(x1, y1, x2, y2) := region sh d in
  (0 <= x1 /\ 0 <= y1 /\ x2 <= width sh - 1 /\ y2 <= height sh - 1)%Z.
Proof. exact (adjust_bounds sh (xyxy d)). Qed.

(** X2: Neither side of that box is longer than a third of the smaller
    dimension of the frame. *)
Theorem region_size_bounded (sh : shape) (d : detection) :
  let '(x1, y1, x2, y2) := region sh d in
  (x2 - x1 <= Z.min (width sh) (height sh) / 3 /\
   y2 - y1 <= Z.min (width sh) (height sh) / 3)%Z.
Proof. exact (adjust_length sh (xyxy d)). Qed.

(** X3: Adjusting an adjusted box changes nothing. *)
Theorem adjust_idempotent (sh : shape) (b : bbox) :
  limit_box sh (clamp_box sh (limit_box sh (clamp_box sh b))) =
  limit_box sh (clamp_box sh b).
Proof.
  pose proof (adjust_bounds sh b) as Hb.
  pose proof (adjust_length sh b) as Hl.
  destruct (limit_box sh (clamp_box sh b)) as [[[x1 y1] x2] y2].
  apply adjust_stable; lia.
Qed.

Lemma roi_size_inside (sh : shape) (x1 y1 x2 y2 : Z) :
  (0 <= x1 -> 0 <= y1 -> x2 <= width sh - 1 -> y2 <= height sh - 1 ->
   x1 < x2 -> y1 < y2 ->
   roi_size sh (x1, y1, x2, y2) = (y2 - y1) * (x2 - x1) * channels sh)%Z.
Proof.
  intros. unfold roi_size, slice_len.
  destruct (Z.ltb_spec y1 0), (Z.ltb_spec y2 0), (Z.ltb_spec x1 0),
    (Z.ltb_spec x2 0); lia.
Qed.

(** X4: On a frame with at least one channel, a box that passes the test
    [x2 > x1 and y2 > y1] cuts a region of (y2-y1)*(x2-x1)*channels
    values: the test [person_roi.size > 0] never fails. *)
Theorem roi_never_empty (sh : shape) (d : detection) (x1 y1 x2 y2 : Z) :
  (0 < channels sh)%Z ->
  region sh d = (x1, y1, x2, y2) ->
  (x1 < x2)%Z -> (y1 < y2)%Z ->
  roi_size sh (region sh d) = ((y2 - y1) * (x2 - x1) * channels sh)%Z /\
  (0 < roi_size sh (region sh d))%Z.
Proof.
  intros Hc Hr Hx Hy.
  pose proof (adjust_bounds sh (xyxy d)) as Hin. fold (region sh d) in Hin.
  rewrite Hr in Hin |- *.
  rewrite roi_size_inside by lia.
  split; [reflexivity|].
  apply Z.mul_pos_pos; [apply Z.mul_pos_pos|]; lia.
Qed.

(** ** The list of genders *)

Lemma detect_box_run (sh : shape) (genders : list string) (d : detection) :
  (0 < channels sh)%Z ->
  gender_argmax d < 2 ->
  detect_box sh genders d =
    Ok (if classified sh d then genders ++ [gender_of d] else genders).
Proof.
  intros Hc Hg. unfold detect_box, classified.
  pose proof (adjust_bounds sh (xyxy d)) as Hin. fold (region sh d) in Hin.
  destruct (region sh d) as [[[x1 y1] x2] y2].
  destruct (is_person d); [|reflexivity].
  destruct (Z.ltb_spec x1 x2); [|reflexivity].
  destruct (Z.ltb_spec y1 y2); [|reflexivity].
  cbn [andb].
  rewrite roi_size_inside by lia.
  assert (Hpos : (0 <? (y2 - y1) * (x2 - x1) * channels sh)%Z = true).
  { apply Z.ltb_lt. apply Z.mul_pos_pos; [apply Z.mul_pos_pos|]; lia. }
  rewrite Hpos. unfold gender_of, index, gender_list.
  destruct (gender_argmax d) as [|[|n]]; [reflexivity|reflexivity|lia].
Qed.

Lemma detect_boxes_run (sh : shape) (boxes : list detection) :
  (0 < channels sh)%Z ->
  Forall (fun d => gender_argmax d < 2) boxes ->
  forall genders,
    detect_boxes sh boxes genders =
      Ok (genders ++ map gender_of (filter (classified sh) boxes)).
Proof.
  intros Hc. induction 1 as [|d rest Hd Hrest IH]; intros genders; simpl.
  - now rewrite app_nil_r.
  - rewrite (@detect_box_run sh genders d Hc Hd).
    destruct (classified sh d); simpl; rewrite IH; [|reflexivity].
    now rewrite <- app_assoc.
Qed.

Lemma detect_results_run (sh : shape) (results : list (list detection)) :
  (0 < channels sh)%Z ->
  Forall (fun d => gender_argmax d < 2) (List.concat results) ->
  forall genders,
    detect_results sh results genders =
      Ok (genders ++ map gender_of (filter (classified sh) (List.concat results))).
Proof.
  intros Hc. induction results as [|boxes rest IH]; intros Hall genders; simpl.
  - now rewrite app_nil_r.
  - simpl in Hall. apply Forall_app in Hall as [Hb Hr].
    rewrite (@detect_boxes_run sh boxes Hc Hb), (IH Hr).
    now rewrite filter_app, map_app, app_assoc.
Qed.

(** X5: On a frame with at least one channel and with a gender net of two
    outputs, [detect_person_and_gender] returns one gender for each box
    that is a person with a non-empty region, in the order of the boxes,
    and nothing for the other boxes. *)
Theorem detect_genders (sh : shape) (results : list (list detection)) :
  (0 < channels sh)%Z ->
  Forall (fun d => gender_argmax d < 2) (List.concat results) ->
  detect_person_and_gender sh results =
    Ok (map gender_of (filter (classified sh) (List.concat results))).
Proof.
  intros Hc Hall. unfold detect_person_and_gender.
  now rewrite (@detect_results_run sh results Hc Hall).
Qed.

Lemma gender_of_two (d : detection) :
  gender_argmax d < 2 -> gender_of d = "Male" \/ gender_of d = "Female".
Proof.
  unfold gender_of, gender_list.
  destruct (gender_argmax d) as [|[|n]]; cbn; [auto|auto|lia].
Qed.

Lemma count_two (genders : list string) :
  Forall (fun g => g = "Male" \/ g = "Female") genders ->
  count_occ string_dec genders "Male" + count_occ string_dec genders "Female" =
    List.length genders.
Proof.
  induction 1 as [|g rest [Hg|Hg] Hrest IH]; [reflexivity| |]; subst g.
  - rewrite count_occ_cons_eq, count_occ_cons_neq by congruence. simpl; lia.
  - rewrite count_occ_cons_neq, count_occ_cons_eq by congruence. simpl; lia.
Qed.

Lemma genders_two (sh : shape) (ds : list detection) :
  Forall (fun d => gender_argmax d < 2) ds ->
  Forall (fun g => g = "Male" \/ g = "Female")
    (map gender_of (filter (classified sh) ds)).
Proof.
  induction 1 as [|d rest Hd Hrest IH]; simpl; [constructor|].
  destruct (classified sh d); simpl; [constructor|]; auto using gender_of_two.
Qed.

(** X6: Under the same conditions every person in the list is counted once,
    as a male or as a female, and there are no more persons than boxes. *)
Theorem counts_partition (sh : shape) (results : list (list detection)) :
  (0 < channels sh)%Z ->
  Forall (fun d => gender_argmax d < 2) (List.concat results) ->
  exists genders : list string,
    detect_person_and_gender sh results = Ok genders /\
    count_occ string_dec genders "Male" + count_occ string_dec genders "Female" =
      List.length genders /\
    List.length genders <= List.length (List.concat results).
Proof.
  intros Hc Hall. eexists. split; [|split].
  - unfold detect_person_and_gender.
    now rewrite (@detect_results_run sh results Hc Hall).
  - apply count_two. cbn. now apply genders_two.
  - cbn. rewrite length_map. apply filter_length_le.
Qed.

Lemma detect_box_skip (sh : shape) (genders : list string) (d : detection) :
  is_person d = false -> detect_box sh genders d = Ok genders.
Proof.
  intros H. unfold detect_box. rewrite H.
  now destruct (region sh d) as [[[x1 y1] x2] y2].
Qed.

Lemma detect_boxes_persons (sh : shape) (boxes : list detection) :
  forall genders,
    detect_boxes sh boxes genders = detect_boxes sh (filter is_person boxes) genders.
Proof.
  induction boxes as [|d rest IH]; intros genders; simpl; [reflexivity|].
  destruct (is_person d) eqn:Hp; simpl.
  - destruct (detect_box sh genders d); [apply IH|reflexivity].
  - rewrite (@detect_box_skip sh genders d Hp). apply IH.
Qed.

(** X7: Boxes with a confidence of 0.5 or less, or of a class other than 0,
    have no effect on the result, be it a list or an exception. *)
Theorem only_persons_matter (sh : shape) (results : list (list detection)) :
  detect_person_and_gender sh results =
  detect_person_and_gender sh (map (filter is_person) results).
Proof.
  unfold detect_person_and_gender. generalize (@nil string) as genders.
  induction results as [|boxes rest IH]; intros genders; simpl; [reflexivity|].
  rewrite <- detect_boxes_persons.
  destruct (detect_boxes sh boxes genders); [apply IH|reflexivity].
Qed.

(** ** One pass of the loop *)

Lemma no_person_genders (sh : shape) (results : list (list detection)) :
  Forall (fun d => is_person d = false) (List.concat results) ->
  detect_person_and_gender sh results = Ok [].
Proof.
  unfold detect_person_and_gender. generalize (@nil string) as genders.
  induction results as [|boxes rest IH]; intros genders Hall; simpl; [reflexivity|].
  simpl in Hall. apply Forall_app in Hall as [Hb Hr].
  assert (Hboxes : detect_boxes sh boxes genders = Ok genders).
  { clear IH Hr. induction Hb as [|d ds Hd Hds IHb]; simpl; [reflexivity|].
    now rewrite (@detect_box_skip sh genders d Hd). }
  rewrite Hboxes. now apply IH.
Qed.

Lemma no_gesture_flag (c : capture) :
  no_gesture c -> detect_sos_gesture (hands_result c) = Ok false.
Proof.
  intros [Hwf Hnone]. destruct (hands_result c) as [hands|]; [|reflexivity].
  destruct (@sos_loop_spec hands Hwf false) as [flag [Hrun Hflag]].
  assert (Hf : flag = false).
  { destruct flag; [|reflexivity].
    destruct (proj1 Hflag eq_refl) as [Hb|[h [Hin Ht]]]; [discriminate|].
    exfalso. exact (Hnone hands h eq_refl Hin Ht). }
  subst flag. destruct hands; [reflexivity|exact Hrun].
Qed.

Lemma gesture_flag (c : capture) :
  gesture c -> detect_sos_gesture (hands_result c) = Ok true.
Proof.
  intros [Hwf [hands [h [Heq [Hin Ht]]]]]. rewrite Heq in Hwf |- *.
  destruct (@sos_loop_spec hands Hwf false) as [flag [Hrun Hflag]].
  assert (Hf : flag = true) by (apply Hflag; right; exists h; auto).
  subst flag. destruct hands; [destruct Hin|exact Hrun].
Qed.

(** The world after the one clock reading of a pass that does nothing else. *)
Lemma quiet_body (loc : location) (c : capture) (w : world) :
  no_person c -> no_gesture c ->
  loop_body loc c w =
    (Ok (quit_key (key c)),
     mkWorld (clock w) (S (reads w)) (incident_file w) (io_faults w) (events w)).
Proof.
  intros Hp Hg. unfold loop_body, process_frame, bind, lift, ret.
  rewrite (@no_person_genders (frame_shape c) (results c) Hp).
  rewrite (@no_gesture_flag c Hg). cbn [count_occ].
  rewrite check_alerts_none; [reflexivity|].
  unfold spec_decision. now rewrite andb_false_r.
Qed.

(** Whatever happens in a pass, it adds to the history nothing, or one
    alert thread and one [log_incident] call with the location of the
    loop. *)
Lemma loop_body_events (loc : location) (c : capture) (w : world) :
  exists evs : list event,
    events (snd (loop_body loc c w)) = events w ++ evs /\
    (evs = [] \/ exists t, evs = [EAlertThread; ELogIncident t loc]).
Proof.
  unfold loop_body, process_frame, bind, lift, ret.
  destruct (detect_person_and_gender _ _) as [genders|e]; cbn [snd];
    [|exists []; rewrite app_nil_r; auto].
  destruct (detect_sos_gesture _) as [sos|e]; cbn [snd];
    [|exists []; rewrite app_nil_r; auto].
  pose proof (check_alerts_events
                (count_occ string_dec genders "Male")
                (count_occ string_dec genders "Female") sos loc w) as Hev.
  destruct (check_alerts _ _ _ _ _) as [[b|e] w1]; cbn [snd] in *;
    (eexists; split; [exact Hev|]);
    (destruct (spec_decision _ _ _ _) as [cnd|]; cbn; [right; eexists; reflexivity|now left]).
Qed.

(** When a pass returns, its value tells whether the quit key was pressed. *)
Lemma loop_body_value (loc : location) (c : capture) (w : world) (b : bool) :
  fst (loop_body loc c w) = Ok b -> b = quit_key (key c).
Proof.
  unfold loop_body, process_frame, bind, lift, ret.
  destruct (detect_person_and_gender _ _) as [genders|e]; cbn [fst]; [|discriminate].
  destruct (detect_sos_gesture _) as [sos|e]; cbn [fst]; [|discriminate].
  destruct (check_alerts _ _ _ _ _) as [[b'|e] w1]; cbn [fst]; [|discriminate].
  now intros [= <-].
Qed.

(** ** The whole run *)

Lemma logged_types_pass (loc : location) (evs : list event) :
  evs = [] \/ (exists t, evs = [EAlertThread; ELogIncident t loc]) ->
  List.length (logged_types evs) <= 1 /\
  (forall t l, In (ELogIncident t l) evs -> l = loc).
Proof.
  intros [->|[t0 ->]]; cbn; split; try lia.
  intros t l [H|[H|[]]]; [discriminate|]. now injection H as _ <-.
Qed.

Lemma main_loop_events (loc : location) (reads_ahead : feed) :
  forall w : world,
  exists evs : list event,
    events (snd (main_loop loc reads_ahead w)) = events w ++ evs /\
    List.length (logged_types evs) <= List.length reads_ahead /\
    (forall t l, In (ELogIncident t l) evs -> l = loc).
Proof.
  induction reads_ahead as [|[c|] rest IH]; intros w; simpl.
  - exists []. rewrite app_nil_r.
    split; [reflexivity|]. split; [simpl; lia|]. intros t l [].
  - unfold bind.
    destruct (loop_body_events loc c w) as [evs [Hev Hshape]].
    apply logged_types_pass in Hshape as [Hone Hloc].
    destruct (loop_body loc c w) as [[[|]|e] w1]; cbn [snd] in Hev |- *.
    + exists evs. split; [exact Hev|]. split; [lia|exact Hloc].
    + destruct (IH w1) as [evs' [Hev' [Hlen Hloc']]].
      exists (evs ++ evs'). rewrite Hev', Hev, app_assoc.
      split; [reflexivity|]. split.
      * unfold logged_types in *. rewrite flat_map_app, length_app. lia.
      * intros t l Hin. apply in_app_or in Hin as [Hin|Hin]; eauto.
    + exists evs. split; [exact Hev|]. split; [lia|exact Hloc].
  - exists []. rewrite app_nil_r.
    split; [reflexivity|]. split; [simpl; lia|]. intros t l [].
Qed.

(** X9: Over a whole run, whatever the faults, [log_incident] is called at
    most once per read of the camera. *)
Theorem run_one_incident_per_frame (g : geocoder_result) (reads_ahead : feed)
    (w : world) :
  List.length (logged_types (new_events w (snd (main g reads_ahead w))))
    <= List.length reads_ahead.
Proof.
  unfold main.
  destruct (main_loop_events (get_location g) reads_ahead w) as [evs [Hev [Hlen _]]].
  now rewrite (@new_events_app w _ _ Hev).
Qed.

(** X10: The location is resolved once: every [log_incident] call of a run
    carries the location [get_location] gave before the loop. *)
Theorem run_location_fixed (g : geocoder_result) (reads_ahead : feed) (w : world)
    (t : string) (l : location) :
  In (ELogIncident t l) (new_events w (snd (main g reads_ahead w))) ->
  l = get_location g.
Proof.
  unfold main.
  destruct (main_loop_events (get_location g) reads_ahead w) as [evs [Hev [_ Hloc]]].
  rewrite (@new_events_app w _ _ Hev). apply Hloc.
Qed.

Ltac keep old Hf :=
  tidy;
  lazymatch goal with
  | |- context [log_incident ?t ?l ?w1] =>
      let Ha := fresh "Ha" in
      let added := fresh "added" in
      destruct (@log_incident_keeps_rows t l w1 old Hf) as [added Ha];
      destruct (log_incident t l w1) as [[[]|?] ?];
      cbn in Ha |- *; exists added; exact Ha
  end.

Lemma check_alerts_keeps_rows (m f : nat) (sos : bool) (loc : location) (w : world)
    (old : list row) :
  incident_file w = Some old ->
  exists added : list row,
    incident_file (snd (check_alerts m f sos loc w)) = Some (old ++ added).
Proof.
  intros Hf.
  cbv [check_alerts and_then is_nighttime bind ret datetime_now
       start_alert_thread emit negb].
  destruct (_ && (f =? 1) && (m =? 0)); [keep old Hf|].
  destruct sos; [keep old Hf|].
  tidy.
  destruct ((f =? 1) && (1 <? m)); [keep old Hf|].
  cbn. exists []. now rewrite app_nil_r.
Qed.

Lemma loop_body_keeps_rows (loc : location) (c : capture) (w : world)
    (old : list row) :
  incident_file w = Some old ->
  exists added : list row,
    incident_file (snd (loop_body loc c w)) = Some (old ++ added).
Proof.
  intros Hf. unfold loop_body, process_frame, bind, lift, ret.
  destruct (detect_person_and_gender _ _) as [genders|e]; cbn [snd];
    [|exists []; now rewrite app_nil_r].
  destruct (detect_sos_gesture _) as [sos|e]; cbn [snd];
    [|exists []; now rewrite app_nil_r].
  destruct (@check_alerts_keeps_rows
              (count_occ string_dec genders "Male")
              (count_occ string_dec genders "Female") sos loc w old Hf)
    as [added Ha].
  destruct (check_alerts _ _ _ _ _) as [[b|e] w1]; cbn [snd] in *;
    exists added; exact Ha.
Qed.

Lemma main_loop_keeps_rows (loc : location) (reads_ahead : feed) :
  forall (w : world) (old : list row),
    incident_file w = Some old ->
    exists added : list row,
      incident_file (snd (main_loop loc reads_ahead w)) = Some (old ++ added).
Proof.
  induction reads_ahead as [|[c|] rest IH]; intros w old Hf; simpl;
    try (exists []; now rewrite app_nil_r).
  unfold bind.
  destruct (@loop_body_keeps_rows loc c w old Hf) as [added Ha].
  destruct (loop_body loc c w) as [[[|]|e] w1]; cbn [snd] in Ha |- *;
    try (exists added; exact Ha).
  destruct (IH w1 _ Ha) as [added' Ha'].
  exists (added ++ added'). now rewrite Ha', app_assoc.
Qed.

(** X11: Over a whole run, whatever the faults, the rows that were in the
    incident file stay where they were: the run only adds rows after
    them. *)
Theorem run_never_rewrites (g : geocoder_result) (reads_ahead : feed) (w : world)
    (old : list row) :
  incident_file w = Some old ->
  exists added : list row,
    incident_file (snd (main g reads_ahead w)) = Some (old ++ added).
Proof. unfold main. apply main_loop_keeps_rows. Qed.

(** X12: A failed read ends the run: what the camera would have given after
    it has no effect. *)
Theorem failed_read_ends_run (g : geocoder_result) (before after : feed) (w : world) :
  main g (before ++ None :: after) w = main g before w.
Proof.
  unfold main. revert w.
  induction before as [|[c|] rest IH]; intros w; simpl; try reflexivity.
  unfold bind. destruct (loop_body _ c w) as [[[|]|e] w1]; auto.
Qed.

(** X13: The pass in which the quit key is pressed is completed and is the
    last one. *)
Theorem quit_key_ends_run (g : geocoder_result) (before after : feed) (c : capture)
    (w : world) :
  quit_key (key c) = true ->
  main g (before ++ Some c :: after) w = main g (before ++ [Some c]) w.
Proof.
  intros Hq. unfold main. revert w.
  induction before as [|[c'|] rest IH]; intros w; simpl; try reflexivity.
  - unfold bind.
    pose proof (@loop_body_value (get_location g) c w) as Hv.
    destruct (loop_body _ c w) as [[q|e] w1]; [|reflexivity].
    rewrite (Hv q eq_refl), Hq. reflexivity.
  - unfold bind. destruct (loop_body _ c' w) as [[[|]|e] w1]; auto.
Qed.

(** X14: The loop quits exactly on the key codes whose low byte is that of
    ['q']; the code -1 of "no key" is not one of them. *)
Theorem quit_key_low_byte (k : Z) :
  (quit_key k = true <-> (k mod 256 = 113)%Z) /\ quit_key (-1) = false.
Proof.
  split; [|reflexivity].
  unfold quit_key, ord_q. rewrite Z.eqb_eq.
  change 255%Z with (Z.ones 8). rewrite Z.land_ones by lia.
  reflexivity.
Qed.

(** X15: A run over frames with no person and no gesture, and over failed
    reads, returns normally, calls neither [log_incident] nor the alert
    sound, and leaves the incident file and the pending outcomes as they
    were, at any time of day. *)
Theorem quiet_run (g : geocoder_result) (reads_ahead : feed) (w : world) :
  Forall quiet_read reads_ahead ->
  fst (main g reads_ahead w) = Ok tt /\
  events (snd (main g reads_ahead w)) = events w /\
  incident_file (snd (main g reads_ahead w)) = incident_file w /\
  io_faults (snd (main g reads_ahead w)) = io_faults w.
Proof.
  unfold main. intros Hall. revert w.
  induction Hall as [|[c|] rest Hq Hrest IH]; intros w; simpl; auto.
  destruct Hq as [Hp Hg]. unfold bind.
  rewrite (@quiet_body (get_location g) c w Hp Hg).
  destruct (quit_key (key c)); [cbn; auto|].
  destruct (IH (mkWorld (clock w) (S (reads w)) (incident_file w) (io_faults w)
                  (events w))) as (H1 & H2 & H3 & H4).
  auto.
Qed.

Lemma gesture_body (loc : location) (c : capture) (w : world) :
  io_faults w = [] -> no_person c -> gesture c ->
  loop_body loc c w =
    (Ok (quit_key (key c)),
     mkWorld (clock w) (S (S (reads w)))
       (Some (rows_with_header (incident_file w) ++
              [data_row "SOS Gesture Detected" loc (clock w (S (reads w)))]))
       [] (events w ++ [EAlertThread; ELogIncident "SOS Gesture Detected" loc])).
Proof.
  intros Hok Hp Hg. unfold loop_body, process_frame, bind, lift, ret.
  rewrite (@no_person_genders (frame_shape c) (results c) Hp).
  rewrite (@gesture_flag c Hg). cbn [count_occ].
  rewrite (@check_alerts_ok 0 0 true loc w SosGesture Hok); [reflexivity|].
  unfold spec_decision. now rewrite andb_false_r.
Qed.

Lemma sos_data_row (loc : location) (d : datetime) :
  sos_row (data_row "SOS Gesture Detected" loc d).
Proof. split; reflexivity. Qed.

Lemma gesture_run_existing (loc : location) (reads_ahead : feed) :
  Forall gesture_read reads_ahead ->
  forall (w : world) (old : list row),
    io_faults w = [] ->
    incident_file w = Some old ->
    fst (main_loop loc reads_ahead w) = Ok tt /\
    (exists rows : list row,
       incident_file (snd (main_loop loc reads_ahead w)) = Some (old ++ rows) /\
       List.length rows = List.length reads_ahead /\
       Forall sos_row rows) /\
    (exists evs : list event,
       events (snd (main_loop loc reads_ahead w)) = events w ++ evs /\
       logged_types evs = repeat "SOS Gesture Detected" (List.length reads_ahead)).
Proof.
  induction 1 as [|[c|] rest Hc Hrest IH]; intros w old Hok Hf; simpl.
  - split; [reflexivity|]. split.
    + exists []. rewrite app_nil_r. auto.
    + exists []. rewrite app_nil_r. auto.
  - destruct Hc as (Hp & Hg & Hk). unfold bind.
    rewrite (@gesture_body loc c w Hok Hp Hg), Hk, Hf. cbn [rows_with_header].
    set (w1 := mkWorld _ _ _ _ _).
    destruct (IH w1 (old ++ [data_row "SOS Gesture Detected" loc (clock w (S (reads w)))])
                eq_refl eq_refl) as (Hres & (rows & Hrows & Hlen & Hall) & (evs & Hev & Hlog)).
    split; [exact Hres|]. split.
    + exists (data_row "SOS Gesture Detected" loc (clock w (S (reads w))) :: rows).
      rewrite Hrows, <- app_assoc. cbn.
      split; [reflexivity|]. split; [now rewrite Hlen|].
      constructor; [apply sos_data_row|exact Hall].
    + exists ([EAlertThread; ELogIncident "SOS Gesture Detected" loc] ++ evs).
      rewrite Hev. subst w1. cbn [events]. rewrite <- app_assoc.
      split; [reflexivity|]. simpl. f_equal. exact Hlog.
  - destruct Hc.
Qed.

(** X16: No debounce: with no fault pending, a run over frames that all show
    the gesture (and no person) logs "SOS Gesture Detected" once per
    frame, and the incident file gains one SOS row per frame. *)
Theorem sustained_gesture (g : geocoder_result) (c : capture) (rest : feed)
    (w : world) :
  io_faults w = [] ->
  Forall gesture_read (Some c :: rest) ->
  let reads_ahead := Some c :: rest in
  fst (main g reads_ahead w) = Ok tt /\
  logged_types (new_events w (snd (main g reads_ahead w))) =
    repeat "SOS Gesture Detected" (List.length reads_ahead) /\
  exists rows : list row,
    incident_file (snd (main g reads_ahead w)) =
      Some (rows_with_header (incident_file w) ++ rows) /\
    List.length rows = List.length reads_ahead /\
    Forall sos_row rows.
Proof.
  intros Hok Hall. inversion Hall as [|r l Hc Hrest]; subst.
  destruct Hc as (Hp & Hg & Hk).
  cbv zeta. unfold main. simpl main_loop. unfold bind.
  rewrite (@gesture_body (get_location g) c w Hok Hp Hg), Hk.
  set (row1 := data_row _ _ _).
  set (w1 := mkWorld _ _ _ _ _).
  destruct (@gesture_run_existing (get_location g) rest Hrest w1
              (rows_with_header (incident_file w) ++ [row1]) eq_refl eq_refl)
    as (Hres & (rows & Hrows & Hlen & Hsos) & (evs & Hev & Hlog)).
  split; [exact Hres|]. split.
  - assert (Hall_ev : events (snd (main_loop (get_location g) rest w1)) =
                      events w ++ ([EAlertThread;
                                    ELogIncident "SOS Gesture Detected" (get_location g)]
                                   ++ evs)).
    { rewrite Hev. subst w1. cbn [events]. now rewrite <- app_assoc. }
    rewrite (@new_events_app w _ _ Hall_ev). simpl. f_equal. exact Hlog.
  - exists (row1 :: rows). rewrite Hrows, <- app_assoc. cbn.
    split; [reflexivity|]. split; [now rewrite Hlen|].
    constructor; [apply sos_data_row|exact Hsos].
Qed.

Lemma new_events_same (w : world) : new_events w w = [].
Proof. unfold new_events. apply skipn_all. Qed.

Ltac settle_persons :=
  repeat match goal with
  | |- _ /\ _ => split
  | |- _ -> _ => intro
  | |- forall _, _ => intro
  | H : _ \/ _ |- _ => destruct H
  | H : False |- _ => destruct H
  | H : In _ [] |- _ => destruct H
  | H : String _ _ = String _ _ |- _ => discriminate H
  | H : _ = ?t |- _ => is_var t; subst t
  end;
  try solve [auto | lia | exfalso; lia].

(** X8: With a gender net of two outputs, on a frame with at least one
    channel: a pass that logs "Woman Alone at Night" saw exactly one
    person; with fewer than three persons a pass logs nothing but the
    first two types; with no person it logs nothing but the SOS type. *)
Theorem alerts_need_persons (loc : location) (c : capture) (w : world) :
  (0 < channels (frame_shape c))%Z ->
  Forall (fun d => gender_argmax d < 2) (List.concat (results c)) ->
  let persons :=
    List.length (filter (classified (frame_shape c)) (List.concat (results c))) in
  (In "Woman Alone at Night" (body_incidents loc c w) -> persons = 1) /\
  (persons < 3 ->
   forall t, In t (body_incidents loc c w) ->
             t = "Woman Alone at Night" \/ t = "SOS Gesture Detected") /\
  (persons = 0 ->
   forall t, In t (body_incidents loc c w) -> t = "SOS Gesture Detected").
Proof.
  intros Hc Hall. cbv zeta.
  unfold body_incidents, loop_body, process_frame, bind, lift, ret,
    detect_person_and_gender.
  rewrite (@detect_results_run (frame_shape c) (results c) Hc Hall []).
  cbn [app].
  pose proof (count_two (@genders_two (frame_shape c) _ Hall)) as Hcount.
  rewrite length_map in Hcount.
  set (genders := map gender_of _) in *.
  set (m := count_occ string_dec genders "Male") in *.
  set (f := count_occ string_dec genders "Female") in *.
  destruct (detect_sos_gesture _) as [sos|e]; cbn [snd];
    [|rewrite new_events_same; cbn; settle_persons].
  pose proof (check_alerts_events m f sos loc w) as Hev.
  destruct (check_alerts m f sos loc w) as [[b|e] w1]; cbn [snd] in *;
    rewrite (@new_events_app w w1 _ Hev); unfold spec_decision;
    destruct (night w), (Nat.eqb_spec f 1), (Nat.eqb_spec m 0),
      (Nat.ltb_spec 1 m), sos; cbn -[str_nat]; settle_persons.
Qed.

Lemma log_incident_header_fails (t : string) (loc : location) (w : world) (e : exn) :
  incident_file w = None ->
  io_faults w = [None; Some e] ->
  log_incident t loc w =
    (Raise e,
     mkWorld (clock w) (reads w) (Some []) [] (events w ++ [ELogIncident t loc])).
Proof.
  destruct w as [clk rd [rows|] fl evs]; simpl; intros Hf Hfl; [discriminate|].
  subst fl. run_log. reflexivity.
Qed.

(** X18: When the file is absent and the first write, that of the header,
    fails, the call raises and leaves an empty file behind; a later call
    that succeeds finds the file present and writes its row without a
    header. *)
Theorem header_lost_after_failed_write (t1 t2 : string) (loc1 loc2 : location)
    (w : world) (e : exn) :
  incident_file w = None ->
  io_faults w = [None; Some e] ->
  let first := log_incident t1 loc1 w in
  let second := log_incident t2 loc2 (snd first) in
  fst first = Raise e /\
  incident_file (snd first) = Some [] /\
  fst second = Ok tt /\
  incident_file (snd second) = Some [data_row t2 loc2 (current_time w)].
Proof.
  intros Hf Hfl. cbv zeta.
  rewrite (@log_incident_header_fails t1 loc1 w e Hf Hfl). cbn [fst snd].
  rewrite log_incident_ok by reflexivity.
  cbn. auto.
Qed.

(** X19: For every time, the text of the timestamp splits at its one space
    into exactly a date and a time, neither holding a space:
    [date_time[0]] and [date_time[1]] exist and there is no third part. *)
Theorem timestamp_parts (d : datetime) :
  exists date time : string,
    split " " (strftime d) = [date; time] /\
    index (split " " (strftime d)) 0 = Ok date /\
    index (split " " (strftime d)) 1 = Ok time /\
    index (split " " (strftime d)) 2 = Raise IndexError /\
    occurs " " date = false /\ occurs " " time = false /\
    strftime d = (date ++ " " ++ time)%string.
Proof.
  exists (fmt_date d), (fmt_time d). rewrite split_strftime.
  repeat split; auto using occurs_fmt_date, occurs_fmt_time.
Qed.



(** ** The further properties at sample inputs *)

Lemma no_person_empty_frame : no_person empty_frame.
Proof. repeat constructor. Defined.

Lemma no_gesture_empty_frame : no_gesture empty_frame.
Proof. split; [exact I|]. intros hands h H; discriminate H. Defined.

Lemma no_person_gesture_frame : no_person gesture_frame.
Proof. repeat constructor. Defined.

Lemma gesture_gesture_frame : gesture gesture_frame.
Proof.
  split; [repeat constructor|].
  exists [open_hand; pinching_hand], pinching_hand.
  split; [reflexivity|]. split; [right; left; reflexivity|].
  eexists; eexists. repeat split; reflexivity.
Defined.

Lemma street_two_outputs :
  Forall (fun d => gender_argmax d < 2) (List.concat street).
Proof. repeat constructor. Defined.

Lemma roi_never_empty_witness :
  (0 < channels vga)%Z /\
  region vga woman_box = (100, 145, 200, 305)%Z /\
  roi_size vga (region vga woman_box) = 48000%Z.
Proof.
  split; [reflexivity|]. split; [reflexivity|].
  exact (proj1 (@roi_never_empty vga woman_box 100 145 200 305
                  eq_refl eq_refl eq_refl eq_refl)).
Defined.

Lemma detect_genders_witness :
  (0 < channels vga)%Z /\
  Forall (fun d => gender_argmax d < 2) (List.concat street) /\
  detect_person_and_gender vga street = Ok ["Female"; "Male"; "Male"].
Proof.
  split; [reflexivity|]. split; [exact street_two_outputs|].
  exact (@detect_genders vga street eq_refl street_two_outputs).
Defined.

Lemma counts_partition_witness :
  (0 < channels vga)%Z /\
  Forall (fun d => gender_argmax d < 2) (List.concat street) /\
  exists genders : list string,
    detect_person_and_gender vga street = Ok genders /\
    count_occ string_dec genders "Male" + count_occ string_dec genders "Female" =
      List.length genders /\
    List.length genders <= List.length (List.concat street).
Proof.
  split; [reflexivity|]. split; [exact street_two_outputs|].
  exact (@counts_partition vga street eq_refl street_two_outputs).
Defined.

Lemma alerts_need_persons_witness :
  (0 < channels (frame_shape street_frame))%Z /\
  Forall (fun d => gender_argmax d < 2) (List.concat (results street_frame)) /\
  List.length (filter (classified (frame_shape street_frame))
                 (List.concat (results street_frame))) = 3 /\
  body_incidents unknown_location street_frame day_world = ["1 Female with 2 Males"] /\
  (In "Woman Alone at Night" (body_incidents unknown_location street_frame day_world) ->
   List.length (filter (classified (frame_shape street_frame))
                  (List.concat (results street_frame))) = 1).
Proof.
  split; [reflexivity|]. split; [exact street_two_outputs|].
  split; [reflexivity|]. split; [reflexivity|].
  exact (proj1 (@alerts_need_persons unknown_location street_frame day_world
                  eq_refl street_two_outputs)).
Defined.

Lemma quiet_run_witness :
  Forall quiet_read [Some empty_frame; Some empty_frame; None] /\
  events (snd (main failed_lookup [Some empty_frame; Some empty_frame; None]
                 night_world)) = [] /\
  incident_file (snd (main failed_lookup [Some empty_frame; Some empty_frame; None]
                        night_world)) = None.
Proof.
  assert (H : Forall quiet_read [Some empty_frame; Some empty_frame; None]).
  { repeat (apply Forall_cons;
              [first [exact I
                     | split; [exact no_person_empty_frame
                              |exact no_gesture_empty_frame]]|]).
    apply Forall_nil. }
  split; [exact H|].
  destruct (@quiet_run failed_lookup _ night_world H) as (_ & Hev & Hfile & _).
  split; [exact Hev|exact Hfile].
Defined.

Lemma sustained_gesture_witness :
  io_faults night_world = [] /\
  Forall gesture_read [Some gesture_frame; Some gesture_frame; Some gesture_frame] /\
  logged_types
    (new_events night_world
       (snd (main failed_lookup
               [Some gesture_frame; Some gesture_frame; Some gesture_frame]
               night_world))) =
    ["SOS Gesture Detected"; "SOS Gesture Detected"; "SOS Gesture Detected"].
Proof.
  assert (H : Forall gesture_read
                [Some gesture_frame; Some gesture_frame; Some gesture_frame]).
  { repeat (apply Forall_cons;
              [split; [exact no_person_gesture_frame
                      |split; [exact gesture_gesture_frame|reflexivity]]|]).
    apply Forall_nil. }
  split; [reflexivity|]. split; [exact H|].
  exact (proj1 (proj2 (@sustained_gesture failed_lookup gesture_frame
                         [Some gesture_frame; Some gesture_frame] night_world
                         eq_refl H))).
Defined.

Lemma run_location_fixed_witness :
  In (ELogIncident "SOS Gesture Detected" unknown_location)
     (new_events night_world (snd (main failed_lookup [Some gesture_frame] night_world))) /\
  unknown_location = get_location failed_lookup.
Proof.
  assert (H : In (ELogIncident "SOS Gesture Detected" unknown_location)
                (new_events night_world
                   (snd (main failed_lookup [Some gesture_frame] night_world)))).
  { right. left. reflexivity. }
  split; [exact H|].
  exact (@run_location_fixed failed_lookup [Some gesture_frame] night_world
           "SOS Gesture Detected" unknown_location H).
Defined.

Lemma run_never_rewrites_witness :
  incident_file logged_world =
    Some [header; data_row "SOS Gesture Detected" unknown_location evening] /\
  exists added : list row,
    incident_file (snd (main failed_lookup [Some gesture_frame; Some street_frame]
                          logged_world)) =
      Some ([header; data_row "SOS Gesture Detected" unknown_location evening] ++ added).
Proof.
  split; [reflexivity|].
  exact (@run_never_rewrites failed_lookup [Some gesture_frame; Some street_frame]
           logged_world _ eq_refl).
Defined.

Lemma quit_key_ends_run_witness :
  quit_key (key quit_frame) = true /\
  main failed_lookup ([Some empty_frame] ++ Some quit_frame :: [Some gesture_frame])
       night_world =
  main failed_lookup ([Some empty_frame] ++ [Some quit_frame]) night_world.
Proof.
  split; [reflexivity|].
  exact (@quit_key_ends_run failed_lookup [Some empty_frame] [Some gesture_frame]
           quit_frame night_world eq_refl).
Defined.

Lemma header_lost_after_failed_write_witness :
  incident_file first_write_fails_world = None /\
  io_faults first_write_fails_world = [None; Some DiskFull] /\
  fst (log_incident "SOS Gesture Detected" unknown_location first_write_fails_world) =
    Raise DiskFull /\
  incident_file
    (snd (log_incident "Woman Alone at Night" unknown_location
            (snd (log_incident "SOS Gesture Detected" unknown_location
                    first_write_fails_world)))) =
    Some [data_row "Woman Alone at Night" unknown_location evening].
Proof.
  split; [reflexivity|]. split; [reflexivity|].
  destruct (@header_lost_after_failed_write "SOS Gesture Detected"
              "Woman Alone at Night" unknown_location unknown_location
              first_write_fails_world DiskFull eq_refl eq_refl)
    as (H1 & _ & _ & H4).
  split; [exact H1|exact H4].
Defined.


(** The person too tall for a third of the frame is cut around the
    centre of the box; the others are kept or dropped whole. *)
Example street_regions :
  map (region vga) (List.concat street) =
    [(100, 145, 200, 305); (10, 10, 50, 90); (300, 185, 420, 345);
     (500, 300, 600, 460); (600, 200, 639, 260)]%Z.
Proof. reflexivity. Qed.

(** A box that starts right of the frame is clamped on one side only and
    is not classified. *)
Example box_outside_frame :
  region vga (mkDetection (700, 100, 800, 200)%Z 0.875 0 1) = (700, 100, 639, 200)%Z /\
  classified vga (mkDetection (700, 100, 800, 200)%Z 0.875 0 1) = false.
Proof. split; reflexivity. Qed.
